(** * Location-Tracker.py: multi-source geolocation, shallow embedding

    The development follows [GeolocationAPI] (provider table, per-provider
    normalisation, multi-source reconciliation) and the address validation
    and [track_ip] entry point of [AdvancedLocationTracker].

    Python values are an inductive type, dictionaries built by the program
    are finite maps, exceptions are an error monad, floats are binary64.
    The network is an oracle from URLs to responses, read through either of
    the two HTTP libraries the source can use; the requests issued and the
    tracker's history form an explicit world threaded through a
    state-and-error monad. *)

From Stdlib Require Import ZArith String Ascii List Bool Lia.
From Stdlib Require Import Floats.PrimFloat Floats.SpecFloat Floats.FloatOps.
From stdpp Require Import gmap strings list.

#[local] Set Warnings "-register-all".

Open Scope string_scope.
Open Scope Z_scope.
Open Scope list_scope.

(** ** Python values and exceptions *)

(** What [json.loads] / [response.json()] can return, which is also what the
    program stores in its result dictionaries.  A decoded JSON object has
    unique keys; it is kept as the list of its items. *)
Inductive pyval : Type :=
| VNone
| VBool (b : bool)
| VInt (z : Z)
| VFloat (f : float)
| VStr (s : string)
| VList (l : list pyval)
| VDict (d : list (string * pyval)).

Inductive exn : Type :=
| TypeError
| ValueError
| KeyError
| IndexError
| OverflowError
| ZeroDivisionError
| Timeout            (* the request timed out or could not connect *)
| HTTPError          (* urllib: the status is not a success *)
| JSONDecodeError.   (* the body is not JSON *)

Inductive outcome (A : Type) : Type :=
| Return (a : A)
| Raise (e : exn).
Arguments Return {A} a.
Arguments Raise {A} e.

Definition obind {A B} (c : outcome A) (k : A -> outcome B) : outcome B :=
  match c with
  | Return a => k a
  | Raise e => Raise e
  end.

Notation "x <- c ;; k" := (obind c (fun x => k))
  (at level 100, c at next level, right associativity).

(** A result dictionary of the program: normalised key to value. *)
Abbreviation record := (gmap string pyval).

(** ** String builtins *)

Module PyStr.

(** A character is a code point below 256.  [str.isspace] there: tab to
    carriage return, the separators 28 to 31, the blank, next-line (133)
    and the no-break space (160). *)
Definition is_space (c : ascii) : bool :=
  let n := nat_of_ascii c in
  ((9 <=? n) && (n <=? 13) || (28 <=? n) && (n <=? 32)
   || (n =? 133) || (n =? 160))%nat.

Definition digit_of (c : ascii) : option Z :=
  let n := nat_of_ascii c in
  if ((48 <=? n) && (n <=? 57))%nat then Some (Z.of_nat n - 48) else None.

Fixpoint lstrip (s : string) : string :=
  match s with
  | EmptyString => EmptyString
  | String c s' => if is_space c then lstrip s' else s
  end.

Fixpoint rstrip (s : string) : string :=
  match s with
  | EmptyString => EmptyString
  | String c s' =>
      match rstrip s' with
      | EmptyString => if is_space c then EmptyString else String c EmptyString
      | r => String c r
      end
  end.

(** [s.strip()] *)
Definition strip (s : string) : string := rstrip (lstrip s).

(** [s.split(sep)] for a one-character separator: never empty. *)
Fixpoint split (sep : ascii) (s : string) : list string :=
  match s with
  | EmptyString => [EmptyString]
  | String c s' =>
      if Ascii.eqb c sep then EmptyString :: split sep s'
      else match split sep s' with
           | [] => [String c EmptyString]
           | p :: ps => String c p :: ps
           end
  end.

(** [c in s] for a one-character [c]. *)
Fixpoint contains (c : ascii) (s : string) : bool :=
  match s with
  | EmptyString => false
  | String c' s' => Ascii.eqb c' c || contains c s'
  end.

(** [sub in s] *)
Fixpoint is_substring (sub s : string) : bool :=
  String.prefix sub s ||
  match s with
  | EmptyString => false
  | String _ s' => is_substring sub s'
  end.

Definition lower_char (c : ascii) : ascii :=
  let n := nat_of_ascii c in
  if ((65 <=? n) && (n <=? 90))%nat then ascii_of_nat (n + 32) else c.

Fixpoint lower (s : string) : string :=
  match s with
  | EmptyString => EmptyString
  | String c s' => String (lower_char c) (lower s')
  end.

(** A [digitpart] of the numeric grammars: decimal digits, single
    underscores allowed between two digits.  Scans the longest run of
    digits and underscores at the head of [s]; answers the value read so
    far, the number of digits, and the rest of the string, or nothing if
    the run is empty or an underscore is misplaced. *)
Fixpoint scan_digits (acc : Z) (n : nat) (after_digit : bool) (s : string)
  : option (Z * nat * string) :=
  match s with
  | EmptyString => if after_digit then Some (acc, n, s) else None
  | String c s' =>
      match digit_of c with
      | Some d => scan_digits (10 * acc + d) (S n) true s'
      | None =>
          if Ascii.eqb c "_" then
            if after_digit then scan_digits acc n false s' else None
          else if after_digit then Some (acc, n, s) else None
      end
  end.

Definition digitpart (s : string) : option (Z * nat * string) :=
  scan_digits 0 0 false s.

(** An optional sign: [true] for minus. *)
Definition take_sign (s : string) : bool * string :=
  match s with
  | String "-" s' => (true, s')
  | String "+" s' => (false, s')
  | _ => (false, s)
  end.

End PyStr.

(** ** Numeric builtins *)

Module PyNum.

(** An integer as an exact, unrounded binary float. *)
Definition exact (z : Z) : spec_float :=
  match z with
  | Z0 => S754_zero false
  | Zpos p => S754_finite false p 0
  | Zneg p => S754_finite true p 0
  end.

(** The binary64 nearest to [n / d], ties to even. *)
Definition nearest_ratio (n d : Z) : spec_float :=
  SFdiv prec emax (exact n) (exact d).

Definition is_infinite (x : spec_float) : bool :=
  match x with
  | S754_infinity _ => true
  | _ => false
  end.

(** The binary64 nearest to an integer, ties to even. *)
Definition nearest_int (z : Z) : spec_float :=
  binary_normalize prec emax z 0 false.

(** [float(z)] for an [int]: the nearest binary64, [OverflowError] when
    the integer is too large. *)
Definition float_of_int (z : Z) : outcome float :=
  let x := nearest_int z in
  if is_infinite x then Raise OverflowError else Return (SF2Prim x).

(** [a / b] on two [int]s: correctly rounded true division. *)
Definition int_truediv (a b : Z) : outcome float :=
  if (b =? 0)%Z then Raise ZeroDivisionError
  else
    let x := nearest_ratio a b in
    if is_infinite x then Raise OverflowError else Return (SF2Prim x).

(** The white space [int] skips around a number.  Code points below 127
    are left as they are and skipped when they are white space for the C
    library: tab to carriage return, and the blank.  The separators 28 to
    31, white space for [str.isspace], are not skipped.  Above, next-line
    (133) and the no-break space (160) are turned into blanks first. *)
Definition is_int_space (c : ascii) : bool :=
  let n := nat_of_ascii c in
  ((9 <=? n) && (n <=? 13) || (n =? 32) || (n =? 133) || (n =? 160))%nat.

Fixpoint skip_space (s : string) : string :=
  match s with
  | EmptyString => EmptyString
  | String c s' => if is_int_space c then skip_space s' else s
  end.

Fixpoint drop_trailing_space (s : string) : string :=
  match s with
  | EmptyString => EmptyString
  | String c s' =>
      match drop_trailing_space s' with
      | EmptyString =>
          if is_int_space c then EmptyString else String c EmptyString
      | r => String c r
      end
  end.

(** [sys.get_int_max_str_digits()] as the interpreter starts. *)
Definition int_max_str_digits : Z := 4300.

(** [int(s)] for a [str], base ten: surrounding white space, an optional
    sign, one [digitpart] of at most [int_max_str_digits] digits. *)
Definition int_of_str (s : string) : outcome Z :=
  let '(neg, body) := PyStr.take_sign (drop_trailing_space (skip_space s)) in
  match PyStr.digitpart body with
  | Some (v, digits, EmptyString) =>
      if (int_max_str_digits <? Z.of_nat digits)%Z then Raise ValueError
      else Return (if neg then - v else v)
  | _ => Raise ValueError
  end.

Definition apply_sign (neg : bool) (f : float) : float :=
  if neg then PrimFloat.opp f else f.

(** The value [m * 10 ^ e] as the nearest binary64. *)
Definition decimal_to_float (m e : Z) : float :=
  if (0 <=? e)%Z then SF2Prim (nearest_ratio (m * 10 ^ e) 1)
  else SF2Prim (nearest_ratio m (10 ^ (- e))).

(** The optional exponent that ends a [floatnumber]. *)
Definition exponent (s : string) : option Z :=
  match s with
  | EmptyString => Some 0
  | String c s' =>
      if Ascii.eqb (PyStr.lower_char c) "e" then
        let '(neg, ds) := PyStr.take_sign s' in
        match PyStr.digitpart ds with
        | Some (v, _, EmptyString) => Some (if neg then - v else v)
        | _ => None
        end
      else None
  end.

(** [digitpart ["."] [digitpart]] or ["." digitpart], then the exponent:
    the mantissa and the decimal exponent of the literal. *)
Definition floatnumber (s : string) : option (Z * Z) :=
  match s with
  | String "." s1 =>
      match PyStr.digitpart s1 with
      | Some (fv, fn, rest) =>
          e ← exponent rest; Some (fv, e - Z.of_nat fn)
      | None => None
      end
  | _ =>
      match PyStr.digitpart s with
      | Some (iv, _, String "." s1) =>
          match PyStr.digitpart s1 with
          | Some (fv, fn, rest) =>
              e ← exponent rest;
              Some (iv * 10 ^ Z.of_nat fn + fv, e - Z.of_nat fn)
          | None => e ← exponent s1; Some (iv, e)
          end
      | Some (iv, _, rest) => e ← exponent rest; Some (iv, e)
      | None => None
      end
  end.

(** [float(s)] for a [str]: surrounding white space, an optional sign,
    then [inf], [infinity], [nan] in any case, or a decimal literal.  A
    literal too large in magnitude gives an infinity, not an exception. *)
Definition float_of_str (s : string) : outcome float :=
  let '(neg, body) := PyStr.take_sign (PyStr.strip s) in
  let low := PyStr.lower body in
  if String.eqb low "inf" || String.eqb low "infinity"
  then Return (apply_sign neg infinity)
  else if String.eqb low "nan" then Return nan
  else match floatnumber body with
       | Some (m, e) => Return (apply_sign neg (decimal_to_float m e))
       | None => Raise ValueError
       end.

End PyNum.

(** ** Operators on values *)

Module Py.

(** Items of a dictionary kept as a list: the value under a key. *)
Fixpoint assoc {A} (k : string) (l : list (string * A)) : option A :=
  match l with
  | [] => None
  | (k', v) :: l' => if String.eqb k k' then Some v else assoc k l'
  end.

(** [k in data] for a string [k]: key of a dictionary, element of a
    list, substring of a string; other values are not containers. *)
Definition contains (k : string) (data : pyval) : outcome bool :=
  match data with
  | VDict d => Return (bool_decide (is_Some (assoc k d)))
  | VList l =>
      Return (existsb (fun v => match v with
                                | VStr s => String.eqb k s
                                | _ => false
                                end) l)
  | VStr s => Return (PyStr.is_substring k s)
  | _ => Raise TypeError
  end.

(** [data[k]] for a string [k]. *)
Definition getitem (data : pyval) (k : string) : outcome pyval :=
  match data with
  | VDict d =>
      match assoc k d with
      | Some v => Return v
      | None => Raise KeyError
      end
  | _ => Raise TypeError
  end.

(** The numeric tower: [bool] is an [int]. *)
Definition as_number (v : pyval) : option (Z + float) :=
  match v with
  | VBool b => Some (inl (if b then 1 else 0))
  | VInt z => Some (inl z)
  | VFloat f => Some (inr f)
  | _ => None
  end.

(** [isinstance(v, str)], and the string it then is. *)
Definition is_str (v : pyval) : bool :=
  match v with
  | VStr _ => true
  | _ => false
  end.

Definition str_of (v : pyval) : string :=
  match v with
  | VStr s => s
  | _ => EmptyString
  end.

(** [isinstance(v, (int, float))] *)
Definition is_number (v : pyval) : bool :=
  bool_decide (is_Some (as_number v)).

(** [float(v)] for a number. *)
Definition to_float (v : pyval) : outcome float :=
  match as_number v with
  | Some (inl z) => PyNum.float_of_int z
  | Some (inr f) => Return f
  | None => Raise TypeError
  end.

(** [a + b] *)
Definition add (a b : pyval) : outcome pyval :=
  match as_number a, as_number b with
  | Some (inl x), Some (inl y) => Return (VInt (x + y))
  | Some (inl x), Some (inr g) =>
      f <- PyNum.float_of_int x;; Return (VFloat (f + g))
  | Some (inr f), Some (inl y) =>
      g <- PyNum.float_of_int y;; Return (VFloat (f + g))
  | Some (inr f), Some (inr g) => Return (VFloat (f + g))
  | _, _ => Raise TypeError
  end.

Fixpoint sum_from (acc : pyval) (l : list pyval) : outcome pyval :=
  match l with
  | [] => Return acc
  | x :: l' => acc' <- add acc x;; sum_from acc' l'
  end.

(** [sum(l)]: additions from left to right, starting from the integer 0.
    An interpreter that compensates the rounding of a float sum can differ
    from this in the last bits of an inexact total; no statement below
    depends on those. *)
Definition sum (l : list pyval) : outcome pyval := sum_from (VInt 0) l.

Definition float_div (f g : float) : outcome pyval :=
  if PrimFloat.eqb g 0 then Raise ZeroDivisionError
  else Return (VFloat (f / g)).

(** [a / b] *)
Definition truediv (a b : pyval) : outcome pyval :=
  match as_number a, as_number b with
  | Some (inl x), Some (inl y) =>
      q <- PyNum.int_truediv x y;; Return (VFloat q)
  | Some (inl x), Some (inr g) =>
      f <- PyNum.float_of_int x;; float_div f g
  | Some (inr f), Some (inl y) =>
      g <- PyNum.float_of_int y;; float_div f g
  | Some (inr f), Some (inr g) => float_div f g
  | _, _ => Raise TypeError
  end.

(** [len(l)] as a value. *)
Definition len {A} (l : list A) : pyval := VInt (Z.of_nat (length l)).

End Py.

(** ** The provider table *)

Record api_config : Type := ApiConfig {
  url : string;                      (* template with the placeholder {ip} *)
  fields : list (string * string)    (* normalised key, provider's key *)
}.

(** [GeolocationAPI.APIS], in the order the dictionary literal lists it. *)
Definition APIS : list (string * api_config) :=
  [ ("ipapi",
     {| url := "https://ipapi.co/{ip}/json/";
        fields := [ ("ip", "ip"); ("city", "city"); ("region", "region");
                    ("country", "country_name"); ("lat", "latitude");
                    ("lon", "longitude"); ("isp", "org");
                    ("timezone", "timezone") ] |});
    ("ipinfo",
     {| url := "https://ipinfo.io/{ip}/json";
        fields := [ ("ip", "ip"); ("city", "city"); ("region", "region");
                    ("country", "country"); ("lat", "loc"); ("lon", "loc");
                    ("isp", "org") ] |});
    ("geolocation",
     {| url := "http://ip-api.com/json/{ip}";
        fields := [ ("ip", "query"); ("city", "city");
                    ("region", "regionName"); ("country", "country");
                    ("lat", "lat"); ("lon", "lon"); ("isp", "isp");
                    ("timezone", "timezone") ] |}) ].

(** [template.format(ip=ip_address)] for a template whose only braces are
    those of the placeholder [{ip}], as in every entry of [APIS]. *)
Fixpoint format_ip (template ip_address : string) : string :=
  match template with
  | String "{" (String "i" (String "p" (String "}" rest))) =>
      ip_address +:+ format_ip rest ip_address
  | String c rest => String c (format_ip rest ip_address)
  | EmptyString => EmptyString
  end.

(** ** Per-provider normalisation (get_location_by_ip, the loop body) *)

(** One turn of [for field, api_field in api_config['fields'].items()]. *)
Definition map_field (data : pyval) (result : record)
    (entry : string * string) : outcome record :=
  let '(field, api_field) := entry in
  present <- Py.contains api_field data;;
  if present : bool then
    value <- Py.getitem data api_field;;
    if String.eqb field "lat" && Py.is_str value
       && PyStr.contains "," (Py.str_of value)
    then
      (* special handling for combined lat/lon *)
      match PyStr.split "," (Py.str_of value) with
      | [lat; lon] =>
          lat' <- PyNum.float_of_str (PyStr.strip lat);;
          lon' <- PyNum.float_of_str (PyStr.strip lon);;
          Return (<["lon" := VFloat lon']> (<["lat" := VFloat lat']> result))
      | _ => Raise ValueError
      end
    else if String.eqb field "lon" && bool_decide (is_Some (result !! "lat"))
    then Return result  (* continue: already handled *)
    else if (String.eqb field "lat" || String.eqb field "lon")
            && Py.is_number value
    then f <- Py.to_float value;; Return (<[field := VFloat f]> result)
    else Return (<[field := value]> result)
  else Return result.

Fixpoint map_fields (data : pyval) (result : record)
    (entries : list (string * string)) : outcome record :=
  match entries with
  | [] => Return result
  | entry :: rest =>
      result' <- map_field data result entry;;
      map_fields data result' rest
  end.

(** The body of the [try] once the response is decoded:
    [result = {'ip': ip_address, 'source': api_name}], then the loop. *)
Definition parse_response (ip_address api_name : string)
    (api_config : api_config) (data : pyval) : outcome record :=
  map_fields data
    (<["source" := VStr api_name]> (<["ip" := VStr ip_address]> ∅))
    (fields api_config).

(** ** The world: network and tracker state *)

(** What a server answers: the status code, and the body as each library
    reads it.  [json] is what [response.json()] of [requests] gives, which
    decodes the bytes with the encoding it detects; [json_utf8] is what
    [json.loads(response.read().decode('utf-8'))] gives.  Either is a value
    or an exception ([JSONDecodeError], or [ValueError] for bytes that are
    not UTF-8). *)
Record response : Type := Response {
  status_code : Z;
  json : outcome pyval;
  json_utf8 : outcome pyval
}.

(** The URLs requested so far, oldest first, and
    [AdvancedLocationTracker.tracking_history]. *)
Record world : Type := World {
  requests : list string;
  tracking_history : list record
}.

(** Computations that read and change the world and may raise. *)
Definition M (A : Type) : Type := world -> outcome A * world.

Definition ret {A} (a : A) : M A := fun w => (Return a, w).

Definition raise {A} (e : exn) : M A := fun w => (Raise e, w).

Definition bind {A B} (c : M A) (k : A -> M B) : M B :=
  fun w =>
    match c w with
    | (Return a, w') => k a w'
    | (Raise e, w') => (Raise e, w')
    end.

(** [try: c except Exception as e: handler e] *)
Definition try_except {A} (c : M A) (handler : exn -> M A) : M A :=
  fun w =>
    match c w with
    | (Return a, w') => (Return a, w')
    | (Raise e, w') => handler e w'
    end.

Definition lift {A} (c : outcome A) : M A := fun w => (c, w).

Notation "x <~ c ;; k" := (bind c (fun x => k))
  (at level 100, c at next level, right associativity).

(** The world after one more request. *)
Definition logged (url : string) (w : world) : world :=
  {| requests := requests w ++ [url]; tracking_history := tracking_history w |}.

(** [self.tracking_history.append(location)] *)
Definition append_history (location : record) : M unit :=
  fun w => (Return tt, {| requests := requests w;
                          tracking_history := tracking_history w ++ [location] |}).

(** The truth value of what [get_location_by_ip] returns: [None] and the
    empty dictionary are false. *)
Definition truthy (result : option record) : bool :=
  match result with
  | None => false
  | Some r => negb (bool_decide (r = ∅))
  end.

(** [if api_name not in GeolocationAPI.APIS: api_name = 'ipapi'] *)
Definition known_or_default (api_name : string) : string :=
  if bool_decide (is_Some (Py.assoc api_name APIS)) then api_name
  else "ipapi".

(** ** Reconciliation (get_location_multi_source, after the loop) *)

(** [[r[key] for r in results if key in r]] *)
Definition column (key : string) (results : list record) : list pyval :=
  omap (fun r : record => r !! key) results.

(** [sum(values) / len(values)] *)
Definition mean (values : list pyval) : outcome pyval :=
  total <- Py.sum values;; Py.truediv total (Py.len values).

(** The body of the [try] under [if len(results) > 1]: the averaged
    result it returns, or nothing when it falls through. *)
Definition average (results : list record) : outcome (option record) :=
  let lats := column "lat" results in
  let lons := column "lon" results in
  if negb (bool_decide (lats = [])) && negb (bool_decide (lons = [])) then
    avg_lat <- mean lats;;
    avg_lon <- mean lons;;
    (* use first result as base *)
    first <- match results with
             | first :: _ => Return first
             | [] => Raise IndexError
             end;;
    Return (Some (<["sources" := Py.len results]>
                 (<["accuracy" := VStr "high"]>
                 (<["lon" := avg_lon]>
                 (<["lat" := avg_lat]> first)))))
  else Return None.

(** First result with medium accuracy. *)
Definition first_medium (results : list record) (first : record) : record :=
  <["sources" := Py.len results]> (<["accuracy" := VStr "medium"]> first).

(** Everything after the loop: nothing for no results, the average when
    there are several and it can be taken, else the first result.  The bare
    [except: pass] turns an exception of the average into a fall-through. *)
Definition reconcile (results : list record) : outcome (option record) :=
  match results with
  | [] => Return None
  | first :: _ =>
      let averaged :=
        if (1 <? Z.of_nat (length results))%Z then
          match average results with
          | Return r => r
          | Raise _ => None
          end
        else None in
      match averaged with
      | Some final_result => Return (Some final_result)
      | None => Return (Some (first_medium results first))
      end
  end.

(** ** Address validation and display *)

(** The loop of [_validate_ip] over the parts. *)
Fixpoint check_octets (parts : list string) : outcome bool :=
  match parts with
  | [] => Return true
  | part :: rest =>
      n <- PyNum.int_of_str part;;
      if negb ((0 <=? n)%Z && (n <=? 255)%Z) then Return false
      else check_octets rest
  end.

(** [AdvancedLocationTracker._validate_ip]: any exception is [False]. *)
Definition _validate_ip (ip : string) : bool :=
  let body :=
    let parts := PyStr.split "." ip in
    if negb (length parts =? 4)%nat then Return false
    else check_octets parts in
  match body with
  | Return b => b
  | Raise _ => false
  end.

(** [f"{v:.4f}"]: defined on numbers only. *)
Definition format_4f (v : pyval) : outcome unit :=
  match Py.as_number v with
  | Some (inl z) => _ <- PyNum.float_of_int z;; Return tt
  | Some (inr _) => Return tt
  | None => if Py.is_str v then Raise ValueError else Raise TypeError
  end.

(** [_display_location_info]: what is printed is not modelled, only the
    exceptions of the two coordinate formats. *)
Definition _display_location_info (location : record) : outcome unit :=
  match location !! "lat", location !! "lon" with
  | Some lat, Some lon => _ <- format_4f lat;; format_4f lon
  | _, _ => Return tt
  end.

(** ** The calls that reach the network *)

Section Tracker.

(** The module-level flag: whether the [requests] library is installed. *)
Variable REQUESTS_AVAILABLE : bool.

(** The network: what a GET of a URL with the ten seconds' time-out gives,
    a response or an exception ([Timeout]: no answer, no connection). *)
Variable net : string -> outcome response.

(** [requests.get(url, timeout=10)]: a response of any status is returned,
    an error status raises nothing. *)
Definition requests_get (url : string) : M response :=
  fun w => (net url, logged url w).

(** [urllib.request.urlopen(req, timeout=10)]: a status that is not a
    success raises [HTTPError]. *)
Definition urlopen (url : string) : M response :=
  fun w =>
    (r <- net url;;
     if (200 <=? status_code r)%Z && (status_code r <? 300)%Z then Return r
     else Raise HTTPError,
     logged url w).

(** The first lines of the [try]: the decoded body, by either library. *)
Definition http_get_json (url : string) : M pyval :=
  if REQUESTS_AVAILABLE then
    response <~ requests_get url;;
    lift (json response)                  (* response.json() *)
  else
    (* use urllib as fallback *)
    response <~ urlopen url;;
    lift (json_utf8 response).  (* json.loads(response.read().decode('utf-8')) *)

(** [get_location_by_ip] from the line that formats the URL on, for the
    provider name and configuration already chosen. *)
Definition query_provider (ip_address api_name : string)
    (api_config : api_config) : M (option record) :=
  let url := format_ip (url api_config) ip_address in
  try_except
    (data <~ http_get_json url;;
     result <~ lift (parse_response ip_address api_name api_config data);;
     ret (Some result))
    (fun e => (* print_warning *) ret None).

(** [GeolocationAPI.get_location_by_ip] *)
Definition get_location_by_ip (ip_address api_name : string)
  : M (option record) :=
  let api_name := known_or_default api_name in
  match Py.assoc api_name APIS with
  | Some api_config => query_provider ip_address api_name api_config
  | None => raise KeyError
  end.

(** The loop of [get_location_multi_source] over the provider names,
    [results] being the list built so far. *)
Fixpoint collect (ip_address : string) (names : list string)
    (results : list record) : M (list record) :=
  match names with
  | [] => ret results
  | api_name :: names' =>
      result <~ get_location_by_ip ip_address api_name;;
      match result with
      | Some r =>
          if truthy result
          then (* time.sleep(0.5) *) collect ip_address names' (results ++ [r])
          else collect ip_address names' results
      | None => collect ip_address names' results
      end
  end.

(** [GeolocationAPI.get_location_multi_source] *)
Definition get_location_multi_source (ip_address : string)
  : M (option record) :=
  results <~ collect ip_address (map fst APIS) [];;
  lift (reconcile results).

(** [AdvancedLocationTracker.track_ip].  The SQLite store written by
    [save_tracking_result] is outside the world, and that method catches
    every exception of its own. *)
Definition track_ip (ip_address : string) : M (option record) :=
  if negb (_validate_ip ip_address) then ret None
  else
    location <~ get_location_multi_source ip_address;;
    match location with
    | Some loc =>
        if truthy location then
          _ <~ lift (_display_location_info loc);;
          _ <~ append_history loc;;
          ret (Some loc)
        else ret None
    | None => ret None
    end.

End Tracker.

(** ** Bulk tracking (AdvancedLocationTracker.bulk_track_ips) *)

(** What the file system holds at a path: nothing, something that cannot be
    opened or read as text (the exception is raised inside the [try]), or
    the lines of a text file, each with its line ending. *)
Inductive file_state : Type :=
| Missing
| Unreadable
| Lines (lines : list string).

(** [[line.strip() for line in f if line.strip()]] *)
Definition stripped_lines (lines : list string) : list string :=
  map PyStr.strip
      (filter (fun line => PyStr.strip line <> EmptyString) lines).

Section Bulk.

Variable REQUESTS_AVAILABLE : bool.
Variable net : string -> outcome response.
Variable fs : string -> file_state.

(** The loop over the addresses, [results] being the list built so far. *)
Fixpoint track_each (ips : list string) (results : list record)
  : M (list record) :=
  match ips with
  | [] => ret results
  | ip :: ips' =>
      if _validate_ip ip then
        result <~ track_ip REQUESTS_AVAILABLE net ip;;
        match result with
        | Some r =>
            if truthy result
            then (* time.sleep(1) *) track_each ips' (results ++ [r])
            else track_each ips' results
        | None => track_each ips' results
        end
      else (* print_warning *) track_each ips' results
  end.

Definition bulk_track_ips (ip_list_file : string) : M (list record) :=
  match fs ip_list_file with
  | Missing => ret []                      (* not os.path.exists *)
  | Unreadable => ret []                   (* except Exception *)
  | Lines lines =>
      try_except
        (let ips := stripped_lines lines in
         if bool_decide (ips = []) then ret []
         else track_each ips [])
        (fun e => ret [])
  end.

End Bulk.

(** ** The public address (NetworkInfo.get_public_ip, get_own_location) *)

(** What a plain-text service answers: the status code, and the body as
    text, or an exception when it cannot be decoded. *)
Record page : Type := Page {
  page_status : Z;
  page_text : outcome string
}.

Definition services : list string :=
  [ "https://api.ipify.org"; "https://ident.me";
    "https://checkip.amazonaws.com"; "http://ifconfig.me/ip" ].

Section OwnLocation.

Variable REQUESTS_AVAILABLE : bool.
Variable net : string -> outcome response.

(** The plain-text services: a GET with the five seconds' time-out. *)
Variable web : string -> outcome page.

(** The body of the [try] for one service: the address it makes
    [get_public_ip] return, or nothing when the loop goes on. *)
Definition ask_service (service : string) : M (option string) :=
  text <~ (fun w =>
             (p <- web service;;
              if REQUESTS_AVAILABLE then page_text p        (* response.text *)
              else if (200 <=? page_status p)%Z && (page_status p <? 300)%Z
              then page_text p                  (* response.read().decode() *)
              else Raise HTTPError,
              logged service w));;
  let ip := PyStr.strip text in
  if negb (String.eqb ip EmptyString)
     && (length (PyStr.split "." ip) =? 4)%nat
  then ret (Some ip)
  else ret None.

Fixpoint ask_services (remaining : list string) : M string :=
  match remaining with
  | [] => ret "Unknown"
  | service :: rest =>
      found <~ try_except (ask_service service) (fun e => ret None);;
      match found with
      | Some ip => ret ip
      | None => (* continue *) ask_services rest
      end
  end.

(** [NetworkInfo.get_public_ip] *)
Definition get_public_ip : M string := ask_services services.

(** [AdvancedLocationTracker.get_own_location].  As in [track_ip], the store
    written by [save_tracking_result] is outside the world. *)
Definition get_own_location : M (option record) :=
  public_ip <~ get_public_ip;;
  if String.eqb public_ip "Unknown" then ret None
  else
    location <~ get_location_multi_source REQUESTS_AVAILABLE net public_ip;;
    match location with
    | Some loc =>
        if truthy location then
          _ <~ lift (_display_location_info loc);;
          ret (Some loc)
        else ret None
    | None => ret None
    end.

End OwnLocation.

(** ** Usernames (SocialMediaTracker, AdvancedLocationTracker.track_username) *)

(** [d[k] = v] on the items of a dictionary: an existing key keeps its
    place, a new one goes last. *)
Fixpoint setitem (k : string) (v : pyval) (d : list (string * pyval))
  : list (string * pyval) :=
  match d with
  | [] => [(k, v)]
  | (k', v') :: d' =>
      if String.eqb k k' then (k, v) :: d' else (k', v') :: setitem k v d'
  end.

(** The dictionary [urls] of [_check_platform]. *)
Definition profile_urls (username : string) : list (string * string) :=
  [ ("instagram", "https://www.instagram.com/" +:+ username +:+ "/");
    ("twitter", "https://twitter.com/" +:+ username);
    ("github", "https://github.com/" +:+ username);
    ("facebook", "https://www.facebook.com/" +:+ username);
    ("linkedin", "https://www.linkedin.com/in/" +:+ username +:+ "/") ].

(** The dictionary [_check_platform] returns. *)
Definition profile (url : string) (found : bool) (platform : string) : pyval :=
  VDict [ ("url", VStr url); ("exists", VBool found);
          ("platform", VStr platform) ].

Definition default_platforms : list string :=
  [ "instagram"; "twitter"; "facebook"; "github"; "linkedin" ].

(** The truth value of a dictionary given by its items. *)
Definition items_truthy (d : list (string * pyval)) : bool :=
  negb (bool_decide (d = [])).

Section Social.

Variable REQUESTS_AVAILABLE : bool.

(** A HEAD request with the five seconds' time-out, redirections followed:
    the final status code, or an exception. *)
Variable head_status : string -> outcome Z.

(** The body of the [try]: the dictionary it returns, or nothing when it
    falls through. *)
Definition head_found (url platform : string) : M (option pyval) :=
  status <~ (fun w =>
               (status <- head_status url;;
                if REQUESTS_AVAILABLE then Return status
                else if (200 <=? status)%Z && (status <? 300)%Z
                then Return status
                else Raise HTTPError,
                logged url w));;
  if (status =? 200)%Z then ret (Some (profile url true platform))
  else ret None.

(** [SocialMediaTracker._check_platform] *)
Definition _check_platform (username platform : string) : M (option pyval) :=
  match Py.assoc platform (profile_urls username) with
  | None => ret None
  | Some url =>
      returned <~ try_except (head_found url platform) (fun e => ret None);;
      match returned with
      | Some result => ret (Some result)
      | None => ret (Some (profile url false platform))
      end
  end.

(** The loop of [track_username], [results] being the dictionary so far. *)
Fixpoint check_each (username : string) (platforms : list string)
    (results : list (string * pyval)) : M (list (string * pyval)) :=
  match platforms with
  | [] => ret results
  | platform :: rest =>
      result <~ _check_platform username platform;;
      match result with
      | Some (VDict items) =>
          if items_truthy items
          then check_each username rest (setitem platform (VDict items) results)
          else check_each username rest results
      | _ => check_each username rest results
      end
  end.

(** [SocialMediaTracker.track_username] *)
Definition social_track_username (username : string)
    (platforms : option (list string)) : M (list (string * pyval)) :=
  check_each username (default default_platforms platforms) [].

(** [AdvancedLocationTracker.track_username].  [_display_social_info] only
    prints: every value of [results] has the keys it reads. *)
Definition track_username (username : string)
  : M (option (list (string * pyval))) :=
  results <~ social_track_username username None;;
  if items_truthy results then
    _ <~ append_history
           {[ "username" := VStr username; "results" := VDict results ]};;
    ret (Some results)
  else (* print_warning *) ret None.

End Social.

(** ** The licence (SimpleLicenseManager) *)

Record license_manager : Type := LicenseManager {
  license_key : string;
  is_valid : bool;
  features : list string
}.

(** [SimpleLicenseManager.__init__] *)
Definition new_license_manager : license_manager :=
  {| license_key := EmptyString; is_valid := false; features := [] |}.

Definition DEMO_MODE : bool := false.

Section License.

(** The module-level constant of that name, whatever its text. *)
Variable VALID_LICENSE_KEY : string.

(** [SimpleLicenseManager.validate]: the answer and the manager after. *)
Definition validate (key : string) (self : license_manager)
  : bool * license_manager :=
  let key := PyStr.strip key in
  if String.eqb key VALID_LICENSE_KEY then
    (true, {| license_key := key; is_valid := true;
              features := [ "full_access"; "all_methods"; "real_time";
                            "export"; "api_access" ] |})
  else if DEMO_MODE
          && (String.eqb key "DEMO" || String.prefix "TRACKER-DEMO" key) then
    (true, {| license_key := key; is_valid := true;
              features := [ "demo_mode"; "basic_tracking" ] |})
  else
    (false, {| license_key := key; is_valid := false;
               features := features self |}).

End License.

(** [SimpleLicenseManager.has_feature] *)
Definition has_feature (feature : string) (self : license_manager) : bool :=
  bool_decide (feature ∈ features self)
  || bool_decide ("full_access" ∈ features self).

(** ** The CSV report (AdvancedLocationTracker.generate_report, 'csv') *)

(** [item.get(k, '')] *)
Definition get_or_empty (item : record) (k : string) : pyval :=
  default (VStr "") (item !! k).

(** The dictionary the loop appends to [rows] for one entry of the history;
    an entry with neither key gets none. *)
Definition csv_row (item : record) : option (list (string * pyval)) :=
  if bool_decide (is_Some (item !! "ip")) then          (* IP location result *)
    Some [ ("Type", VStr "IP");
           ("Target", default VNone (item !! "ip"));
           ("City", get_or_empty item "city");
           ("Country", get_or_empty item "country");
           ("Latitude", get_or_empty item "lat");
           ("Longitude", get_or_empty item "lon");
           ("ISP", get_or_empty item "isp");
           ("Source", get_or_empty item "source");
           ("Accuracy", get_or_empty item "accuracy") ]
  else if bool_decide (is_Some (item !! "phone_number")) then (* Phone result *)
    Some [ ("Type", VStr "Phone");
           ("Target", default VNone (item !! "phone_number"));
           ("Country", get_or_empty item "country");
           ("Region", get_or_empty item "region");
           ("Carrier", get_or_empty item "carrier");
           ("Valid", get_or_empty item "valid") ]
  else None.

(** [csv.DictWriter._dict_to_list] with the defaults [extrasaction='raise']
    and [restval='']: the cells of a row in the order of the field names. *)
Definition _dict_to_list (fieldnames : list string)
    (rowdict : list (string * pyval)) : outcome (list pyval) :=
  if forallb (fun k => bool_decide (k ∈ fieldnames)) (map fst rowdict)
  then Return (map (fun k => default (VStr "") (Py.assoc k rowdict)) fieldnames)
  else Raise ValueError.

Section Report.

(** Whether [open(path, 'w')] succeeds. *)
Variable opens : string -> bool.

(** Whether the file takes the text of a row of cells. *)
Variable accepts : list pyval -> bool.

(** [DictWriter.writerows]: whether it ends without an exception. *)
Fixpoint writerows (fieldnames : list string)
    (rowdicts : list (list (string * pyval))) : bool :=
  match rowdicts with
  | [] => true
  | rowdict :: rest =>
      match _dict_to_list fieldnames rowdict with
      | Return cells => accepts cells && writerows fieldnames rest
      | Raise _ => false
      end
  end.

(** [generate_report] with [output_format.lower() == 'csv'] and a file name
    given: the name when the report is written, [None] when the history is
    empty or the [except] branch is taken. *)
Definition generate_report_csv (output_file : string)
    (tracking_history : list record) : option string :=
  if bool_decide (tracking_history = []) then None
  else if negb (opens output_file) then None
  else
    let rows := omap csv_row tracking_history in
    match rows with
    | [] => Some output_file
    | first :: _ =>
        let fieldnames := map fst first in
        if accepts (map VStr fieldnames)                      (* writeheader *)
           && writerows fieldnames rows
        then Some output_file
        else None
    end.

End Report.

(** ** Definitions used to state the properties *)

Definition empty_world : world := {| requests := []; tracking_history := [] |}.

(** The decoded body the [try] obtains for a URL, read off the network. *)
Definition fetched (ra : bool) (net : string -> outcome response)
    (url : string) : outcome pyval :=
  r <- net url;;
  if ra then json r
  else if (200 <=? status_code r)%Z && (status_code r <? 300)%Z
  then json_utf8 r
  else Raise HTTPError.

(** The value of [query_provider], read off the network's answer. *)
Definition provider_record (ra : bool) (net : string -> outcome response)
    (ip_address api_name : string) (api_config : api_config) : option record :=
  match fetched ra net (format_ip (url api_config) ip_address) with
  | Return data =>
      match parse_response ip_address api_name api_config data with
      | Return r => Some r
      | Raise _ => None
      end
  | Raise _ => None
  end.

(** What one provider contributes to [results]. *)
Definition provider_answer (ra : bool) (net : string -> outcome response)
    (ip_address api_name : string) : option record :=
  match fst (get_location_by_ip ra net ip_address api_name empty_world) with
  | Return result => result
  | Raise _ => None
  end.

(** The records of the providers whose call returns one, in the order of
    [APIS]. *)
Definition successful_records (ra : bool) (net : string -> outcome response)
    (ip_address : string) : list record :=
  omap (provider_answer ra net ip_address) (map fst APIS).

(** In the specification's words: the adapter fails on a status that is
    not a success, on a time-out or connection error and on a body that is
    not JSON, and never raises; otherwise it answers the normalised body. *)
Definition adapter_record (net : string -> outcome response)
    (ip_address api_name : string) : option record :=
  api_config ← Py.assoc (known_or_default api_name) APIS;
  match net (format_ip (url api_config) ip_address) with
  | Return r =>
      if (200 <=? status_code r)%Z && (status_code r <? 300)%Z then
        match json r with
        | Return data =>
            match parse_response ip_address (known_or_default api_name)
                    api_config data with
            | Return record => Some record
            | Raise _ => None
            end
        | Raise _ => None
        end
      else None
  | Raise _ => None
  end.

(** The two libraries read every body of the network alike. *)
Definition decoders_agree (net : string -> outcome response) : Prop :=
  forall url r, net url = Return r -> json_utf8 r = json r.

(** The records of the providers that did not fail, in that sense. *)
Definition answering_records (net : string -> outcome response)
    (ip_address : string) : list record :=
  omap (adapter_record net ip_address) (map fst APIS).

(** The URL a call of [get_location_by_ip] requests. *)
Definition request_url (ip_address api_name : string) : string :=
  match Py.assoc (known_or_default api_name) APIS with
  | Some api_config => format_ip (url api_config) ip_address
  | None => EmptyString
  end.

(** The result of the averaging branch. *)
Definition averaged (results : list record) (first : record)
    (avg_lat avg_lon : pyval) : record :=
  <["sources" := Py.len results]>
    (<["accuracy" := VStr "high"]>
       (<["lon" := avg_lon]> (<["lat" := avg_lat]> first))).

(** The value a decoded body holds under the provider's own field for the
    address, if it is an object that has that field. *)
Definition native_ip (api_config : api_config) (data : pyval) : option pyval :=
  match data with
  | VDict d => api_field ← Py.assoc "ip" (fields api_config); Py.assoc api_field d
  | _ => None
  end.

(** A value written as the integer [z] or as the float [z]. *)
Definition numeral (z : Z) (v : pyval) : Prop :=
  v = VInt z \/ v = VFloat (SF2Prim (PyNum.nearest_int z)).

(** A part of an address: no dot in it, and [int] reads it as an integer
    from 0 to 255. *)
Definition octet (part : string) : Prop :=
  PyStr.contains "." part = false /\
  exists n, PyNum.int_of_str part = Return n /\ 0 <= n <= 255.

(** In the specification's words: an octet is a non-empty run of decimal
    digits whose value is at most 255, and an address is four octets
    separated by three dots. *)
Fixpoint decimal_value (acc : Z) (s : string) : option Z :=
  match s with
  | EmptyString => Some acc
  | String c s' => d ← PyStr.digit_of c; decimal_value (10 * acc + d) s'
  end.

Definition decimal_octet (part : string) : Prop :=
  part <> EmptyString /\ exists n, decimal_value 0 part = Some n /\ n <= 255.

Definition dotted_quad (ip : string) : Prop :=
  exists a b c d,
    ip = a +:+ "." +:+ b +:+ "." +:+ c +:+ "." +:+ d /\
    decimal_octet a /\ decimal_octet b /\ decimal_octet c /\ decimal_octet d.

(** Concrete networks and records used to run the definitions. *)
Module Samples.

Definition ip : string := "8.8.8.8".

Definition ok (data : pyval) : outcome response :=
  Return {| status_code := 200; json := Return data;
            json_utf8 := Return data |}.

(** Every request times out. *)
Definition net_down : string -> outcome response := fun _ => Raise Timeout.

(** Only ipapi answers, with a latitude and no longitude. *)
Definition net_lat_only : string -> outcome response := fun u =>
  if String.eqb u "https://ipapi.co/8.8.8.8/json/"
  then ok (VDict [("city", VStr "Mountain View"); ("latitude", VFloat 10.5)])
  else Raise Timeout.

(** ipapi and ip-api answer with separate numeric coordinates. *)
Definition net_separate : string -> outcome response := fun u =>
  if String.eqb u "https://ipapi.co/8.8.8.8/json/"
  then ok (VDict [("latitude", VInt 10); ("longitude", VInt 20)])
  else if String.eqb u "http://ip-api.com/json/8.8.8.8"
  then ok (VDict [("lat", VFloat 10); ("lon", VFloat 20)])
  else Raise Timeout.

(** ipapi echoes another address than the one asked for. *)
Definition net_echo : string -> outcome response := fun u =>
  if String.eqb u "https://ipapi.co/8.8.8.8/json/"
  then ok (VDict [("ip", VStr "9.9.9.9"); ("city", VStr "Berkeley")])
  else Raise Timeout.

(** ipapi and ipinfo answer, ip-api times out. *)
Definition net_mixed : string -> outcome response := fun u =>
  if String.eqb u "https://ipapi.co/8.8.8.8/json/"
  then ok (VDict [("city", VStr "Mountain View"); ("latitude", VInt 10);
                  ("longitude", VInt 20)])
  else if String.eqb u "https://ipinfo.io/8.8.8.8/json"
  then ok (VDict [("city", VStr "Mtn View"); ("loc", VStr "12.5, 22.25")])
  else Raise Timeout.

(** ipapi refuses with status 429 and a JSON body, ipinfo answers, ip-api
    times out. *)
Definition net_rate_limited : string -> outcome response := fun u =>
  if String.eqb u "https://ipapi.co/8.8.8.8/json/"
  then Return {| status_code := 429;
                 json := Return (VDict [("error", VBool true);
                                        ("reason", VStr "RateLimited")]);
                 json_utf8 := Return (VDict [("error", VBool true);
                                             ("reason", VStr "RateLimited")]) |}
  else if String.eqb u "https://ipinfo.io/8.8.8.8/json"
  then ok (VDict [("city", VStr "Mtn View"); ("loc", VStr "12.5, 22.25")])
  else Raise Timeout.

(** Every provider answers status 500 with a JSON body. *)
Definition net_all_500 : string -> outcome response := fun _ =>
  Return {| status_code := 500;
            json := Return (VDict [("error", VStr "Internal Server Error")]);
            json_utf8 :=
              Return (VDict [("error", VStr "Internal Server Error")]) |}.

(** Over [net_all_500], what the [requests] transport leads to. *)
Definition all_500_result : record :=
  {[ "ip" := VStr "8.8.8.8"; "source" := VStr "ipapi";
     "accuracy" := VStr "medium"; "sources" := VInt 3 ]}.

(** ipapi answers, ipinfo refuses with status 429 and a JSON body, ip-api
    times out. *)
Definition net_second_refused : string -> outcome response := fun u =>
  if String.eqb u "https://ipapi.co/8.8.8.8/json/"
  then ok (VDict [("city", VStr "Mountain View")])
  else if String.eqb u "https://ipinfo.io/8.8.8.8/json"
  then Return {| status_code := 429;
                 json := Return (VDict [("status", VInt 429)]);
                 json_utf8 := Return (VDict [("status", VInt 429)]) |}
  else Raise Timeout.

(** Over [net_second_refused], what each transport leads to. *)
Definition second_refused_result (sources : Z) : record :=
  {[ "ip" := VStr "8.8.8.8"; "source" := VStr "ipapi";
     "city" := VStr "Mountain View"; "accuracy" := VStr "medium";
     "sources" := VInt sources ]}.

(** Over [net_rate_limited]: what the [requests] transport leads to, and
    the reconciliation of ipinfo's record alone. *)
Definition rate_limited_result : record :=
  {[ "ip" := VStr "8.8.8.8"; "source" := VStr "ipapi";
     "lat" := VFloat 12.5; "lon" := VFloat 22.25;
     "accuracy" := VStr "high"; "sources" := VInt 2 ]}.

Definition ipinfo_alone_result : record :=
  {[ "ip" := VStr "8.8.8.8"; "source" := VStr "ipinfo";
     "city" := VStr "Mtn View"; "lat" := VFloat 12.5; "lon" := VFloat 22.25;
     "accuracy" := VStr "medium"; "sources" := VInt 1 ]}.

(** What multi-source resolution answers over [net_mixed]. *)
Definition mixed_result : record :=
  {[ "ip" := VStr "8.8.8.8"; "source" := VStr "ipapi";
     "city" := VStr "Mountain View"; "lat" := VFloat 11.25;
     "lon" := VFloat 22.25; "accuracy" := VStr "high";
     "sources" := VInt 2 ]}.

(** What ipapi's call answers over [net_echo]. *)
Definition echo_record : record :=
  {[ "ip" := VStr "9.9.9.9"; "source" := VStr "ipapi";
     "city" := VStr "Berkeley" ]}.

(** What ipapi's call answers over [net_separate]. *)
Definition separate_record : record :=
  {[ "ip" := VStr "8.8.8.8"; "source" := VStr "ipapi"; "lat" := VFloat 10 ]}.

Definition recA : record :=
  {[ "lat" := VInt 10; "lon" := VInt 20; "source" := VStr "A";
     "city" := VStr "Paris" ]}.
Definition recB : record :=
  {[ "lat" := VInt 12; "lon" := VInt 22; "source" := VStr "B";
     "city" := VStr "Lyon" ]}.
Definition recX : record := {[ "city" := VStr "X"; "source" := VStr "A" ]}.
Definition recB1 : record :=
  {[ "lat" := VInt 1; "lon" := VInt 1; "source" := VStr "B" ]}.

End Samples.

(** ** Definitions used to state the further properties *)

(** A field that is neither coordinate. *)
Definition plain (entry : string * string) : Prop :=
  fst entry <> "lat" /\ fst entry <> "lon".

(** A record never holds a longitude beside a latitude unless both are
    floats. *)
Definition coordinates_typed (r : record) : Prop :=
  r !! "lon" = None \/ r !! "lat" = None \/
  exists fa fo, r !! "lat" = Some (VFloat fa) /\ r !! "lon" = Some (VFloat fo).

(** What multi-source resolution answers for an address. *)
Definition resolved (ra : bool) (net : string -> outcome response)
    (ip : string) : option record :=
  match reconcile (successful_records ra net ip) with
  | Return result => result
  | Raise _ => None
  end.

(** The URLs of the three providers for an address, in table order. *)
Definition provider_urls (ip : string) : list string :=
  map (request_url ip) (map fst APIS).

(** The two floats a combined "lat,lon" string stands for, when it has
    exactly two parts and [float] reads both. *)
Definition parse_pair (s : string) : option (float * float) :=
  match PyStr.split "," s with
  | [x; y] =>
      match PyNum.float_of_str (PyStr.strip x),
            PyNum.float_of_str (PyStr.strip y) with
      | Return fx, Return fy => Some (fx, fy)
      | _, _ => None
      end
  | _ => None
  end.

(** The record as the call leaves it when no field is mapped. *)
Definition stamp (ip api_name : string) : record :=
  <["source" := VStr api_name]> (<["ip" := VStr ip]> ∅).

(** JSON null, a boolean or a number: a body that is no container. *)
Definition is_scalar (data : pyval) : bool :=
  match data with
  | VNone | VBool _ | VInt _ | VFloat _ => true
  | _ => false
  end.

(** The addresses of a file that [bulk_track_ips] resolves: the stripped,
    non-empty lines that pass validation, in the order of the file. *)
Definition bulk_addresses (fs : string -> file_state) (path : string)
  : list string :=
  match fs path with
  | Lines lines =>
      filter (fun ip => _validate_ip ip = true) (stripped_lines lines)
  | _ => []
  end.

(** The text a service is read as: by [requests] whatever the status, by
    [urllib] on a success status only. *)
Definition service_text (ra : bool) (web : string -> outcome page)
    (service : string) : outcome string :=
  p <- web service;;
  if ra then page_text p
  else if (200 <=? page_status p)%Z && (page_status p <? 300)%Z
  then page_text p
  else Raise HTTPError.

(** The address a service makes [get_public_ip] return, if any: its text
    stripped, when that is not empty and has four parts between dots. *)
Definition service_answer (ra : bool) (web : string -> outcome page)
    (service : string) : option string :=
  match service_text ra web service with
  | Return text =>
      let ip := PyStr.strip text in
      if negb (String.eqb ip EmptyString)
         && (length (PyStr.split "." ip) =? 4)%nat
      then Some ip else None
  | Raise _ => None
  end.

(** Whether a HEAD of the URL ends with status 200. *)
Definition answers_200 (head_status : string -> outcome Z) (url : string)
  : bool :=
  match head_status url with
  | Return status => (status =? 200)%Z
  | Raise _ => false
  end.

(** The profile pages of a username, in the order of the default list of
    platforms. *)
Definition default_urls (username : string) : list string :=
  omap (fun platform => Py.assoc platform (profile_urls username))
       default_platforms.

(** An entry of the history that the CSV report writes as an address. *)
Definition ip_entry (item : record) : Prop := is_Some (item !! "ip").

(** An entry of the history that the CSV report writes as a phone number. *)
Definition phone_entry (item : record) : Prop :=
  item !! "ip" = None /\ is_Some (item !! "phone_number").

(** The columns of an address row and of a phone row, as [csv_row] orders
    them. *)
Definition ip_fields : list string :=
  [ "Type"; "Target"; "City"; "Country"; "Latitude"; "Longitude"; "ISP";
    "Source"; "Accuracy" ].

Definition phone_fields : list string :=
  [ "Type"; "Target"; "Country"; "Region"; "Carrier"; "Valid" ].

(** A history that holds an address entry and a phone entry. *)
Definition mixed (history : list record) : Prop :=
  exists a b, a ∈ history /\ b ∈ history /\ ip_entry a /\ phone_entry b.

(** Further networks, files and services used to run the definitions. *)
Module Cases.

Definition ip : string := "8.8.8.8".

(** ipinfo answers a combined field with three parts, the others time out. *)
Definition net_three_parts : string -> outcome response := fun u =>
  if String.eqb u "https://ipinfo.io/8.8.8.8/json"
  then Samples.ok (VDict [("city", VStr "Mtn View"); ("loc", VStr "1,2,3")])
  else Raise Timeout.

(** ipapi answers an empty JSON array, ipinfo the JSON value null. *)
Definition net_not_objects : string -> outcome response := fun u =>
  if String.eqb u "https://ipapi.co/8.8.8.8/json/"
  then Samples.ok (VList [])
  else if String.eqb u "https://ipinfo.io/8.8.8.8/json"
  then Samples.ok VNone
  else Raise Timeout.

(** ipapi answers a full body. *)
Definition net_full : string -> outcome response := fun u =>
  if String.eqb u "https://ipapi.co/8.8.8.8/json/"
  then Samples.ok (VDict [("ip", VStr "8.8.8.8"); ("city", VStr "Mountain View");
                          ("country_name", VStr "United States");
                          ("latitude", VFloat 37.5); ("org", VStr "GOOGLE");
                          ("asn", VStr "AS15169")])
  else Raise Timeout.

(** What reconciliation gives on [Samples.recA] and [Samples.recB]. *)
Definition agreed_result : record :=
  <["sources" := VInt 2]>
    (<["accuracy" := VStr "high"]>
       (<["lon" := VFloat 21]> (<["lat" := VFloat 11]> Samples.recA))).

(** A first record with a latitude that is a string, then a full one. *)
Definition rec_text_lat : record :=
  {[ "ip" := VStr "8.8.8.8"; "source" := VStr "ipapi";
     "lat" := VStr "not available" ]}.
Definition rec_full : record :=
  {[ "ip" := VStr "8.8.8.8"; "source" := VStr "ipinfo";
     "lat" := VFloat 12.5; "lon" := VFloat 22.25 ]}.

(** A file of four lines: two addresses, a blank line, a host name. *)
Definition fs_list : string -> file_state := fun path =>
  if String.eqb path "ips.txt"
  then Lines [ "8.8.8.8" +:+ String "010" EmptyString;
               String "010" EmptyString;
               "example.org" +:+ String "010" EmptyString;
               "  1.1.1.1  " ]
  else Missing.

(** The first service is down, the second answers a host name of four
    parts with a line ending. *)
Definition web_host_name : string -> outcome page := fun u =>
  if String.eqb u "https://ident.me"
  then Return {| page_status := 200;
                 page_text := Return ("a.example.org.uk" +:+ String "010" EmptyString) |}
  else Raise Timeout.

(** Only GitHub knows the name; Twitter answers 404, the others time out. *)
Definition head_github : string -> outcome Z := fun u =>
  if String.eqb u "https://github.com/octocat" then Return 200
  else if String.eqb u "https://twitter.com/octocat" then Return 404
  else Raise Timeout.

(** Every status is 200; the body of ipapi is declared and encoded in
    ISO-8859-1, which [requests] decodes and [decode('utf-8')] refuses. *)
Definition net_latin1 : string -> outcome response := fun u =>
  if String.eqb u "https://ipapi.co/8.8.8.8/json/"
  then Return {| status_code := 200;
                 json := Return (VDict [("city", VStr "Zurich")]);
                 json_utf8 := Raise ValueError |}
  else Raise Timeout.

(** A file system that opens every path, a file that takes every row. *)
Definition opens_all : string -> bool := fun _ => true.
Definition accepts_all : list pyval -> bool := fun _ => true.

Definition phone_record : record :=
  {[ "phone_number" := VStr "+14155550100"; "country" := VStr "United States";
     "valid" := VBool true ]}.

End Cases.

(** * Properties *)

(** ** What a run of the per-provider call is *)

Lemma query_provider_run ra net ip name cfg w :
  query_provider ra net ip name cfg w
  = (Return (provider_record ra net ip name cfg),
     logged (format_ip (url cfg) ip) w).
Proof.
  unfold query_provider, provider_record, fetched, try_except, bind,
    http_get_json, requests_get, urlopen, lift, ret.
  destruct ra; destruct (net _) as [r|e]; simpl; try reflexivity.
  - destruct (json r); simpl; [|reflexivity].
    destruct (parse_response _ _ _ _); reflexivity.
  - destruct (_ && _); simpl; [|reflexivity].
    destruct (json_utf8 r); simpl; [|reflexivity].
    destruct (parse_response _ _ _ _); reflexivity.
Qed.

Lemma known_or_default_configured name :
  is_Some (Py.assoc (known_or_default name) APIS).
Proof.
  unfold known_or_default. case_bool_decide as Hk; [exact Hk|].
  vm_compute. eauto.
Qed.

Lemma known_or_default_known name cfg :
  Py.assoc name APIS = Some cfg -> known_or_default name = name.
Proof.
  intros H. unfold known_or_default. rewrite bool_decide_eq_true_2; eauto.
Qed.

Lemma known_or_default_unknown name :
  Py.assoc name APIS = None -> known_or_default name = "ipapi".
Proof.
  intros H. unfold known_or_default. rewrite bool_decide_eq_false_2; [done|].
  rewrite H. by intros [? ?].
Qed.

Lemma get_location_by_ip_run ra net ip name w :
  exists cfg,
    Py.assoc (known_or_default name) APIS = Some cfg /\
    get_location_by_ip ra net ip name w
    = (Return (provider_record ra net ip (known_or_default name) cfg),
       logged (format_ip (url cfg) ip) w).
Proof.
  destruct (known_or_default_configured name) as [cfg Hcfg].
  exists cfg. split; [exact Hcfg|].
  unfold get_location_by_ip. rewrite Hcfg. apply query_provider_run.
Qed.

Lemma get_location_by_ip_world ra net ip name w w' :
  fst (get_location_by_ip ra net ip name w) = fst (get_location_by_ip ra net ip name w').
Proof.
  destruct (get_location_by_ip_run ra net ip name w) as (c & Hc & ->).
  destruct (get_location_by_ip_run ra net ip name w') as (c' & Hc' & ->).
  rewrite Hc in Hc'. by inversion Hc'.
Qed.

(** ** Normalisation only adds keys *)

#[local] Arguments map_field : simpl never.

(** Case analysis over one turn of the loop that ended normally. *)
Ltac map_field_cases H :=
  unfold map_field in H; simpl in H;
  repeat match type of H with
         | Return _ = Return _ => inversion H; subst; clear H
         | Raise _ = Return _ => discriminate H
         | context [obind ?c _] => destruct c eqn:?; simpl in H
         | context [if ?b then _ else _] => destruct b eqn:?
         | context [match ?l with [] => _ | _ :: _ => _ end] =>
             destruct l eqn:?
         end.

Lemma map_field_keeps data result entry result' k :
  map_field data result entry = Return result' ->
  is_Some (result !! k) -> is_Some (result' !! k).
Proof.
  destruct entry as [field api_field]. intros H Hk.
  map_field_cases H; try assumption;
    repeat (rewrite lookup_insert; case_decide; [eauto|]); assumption.
Qed.

Lemma map_field_other data result field api_field result' k :
  map_field data result (field, api_field) = Return result' ->
  k <> field -> k <> "lat" -> k <> "lon" ->
  result' !! k = result !! k.
Proof.
  intros H Hf Hlat Hlon.
  map_field_cases H; try reflexivity;
    repeat (rewrite lookup_insert_ne; [|congruence]); reflexivity.
Qed.

Lemma map_fields_keeps data entries : forall result result' k,
  map_fields data result entries = Return result' ->
  is_Some (result !! k) -> is_Some (result' !! k).
Proof.
  induction entries as [|entry rest IH]; intros result result' k H Hk; simpl in H.
  - inversion H; subst. exact Hk.
  - destruct (map_field data result entry) as [r1|] eqn:E; simpl in H; [|done].
    eapply IH; [exact H|]. eapply map_field_keeps; eauto.
Qed.

Lemma map_fields_other data entries k : forall result result',
  map_fields data result entries = Return result' ->
  Forall (fun entry => k <> fst entry) entries ->
  k <> "lat" -> k <> "lon" ->
  result' !! k = result !! k.
Proof.
  induction entries as [|[field api_field] rest IH];
    intros result result' H Hall Hlat Hlon; simpl in H.
  - inversion H; subst. reflexivity.
  - destruct (map_field data result (field, api_field)) as [r1|] eqn:E;
      simpl in H; [|done].
    inversion Hall as [|? ? Hhd Htl]; subst. simpl in Hhd.
    rewrite (IH _ _ H Htl Hlat Hlon).
    eapply map_field_other; eauto.
Qed.

(** ** Records of the configured providers *)

Lemma assoc_Some_elem {A} k (l : list (string * A)) v :
  Py.assoc k l = Some v -> v ∈ map snd l.
Proof.
  induction l as [|[k' v'] l IH]; simpl; [done|].
  destruct (String.eqb k k').
  - intros [= ->]. left.
  - intros H. right. auto.
Qed.

(** No provider maps a field to one of the keys the program itself sets. *)
Lemma APIS_fields_avoid name cfg k :
  Py.assoc name APIS = Some cfg ->
  k ∈ ["source"; "accuracy"; "sources"] ->
  Forall (fun entry => k <> fst entry) (fields cfg).
Proof.
  intros Hcfg Hk. apply assoc_Some_elem in Hcfg.
  assert (Hall : Forall (fun c => Forall (fun j =>
            Forall (fun entry => j <> fst entry) (fields c))
            ["source"; "accuracy"; "sources"]) (map snd APIS)).
  { simpl. repeat constructor; discriminate. }
  rewrite Forall_forall in Hall. specialize (Hall _ Hcfg).
  rewrite Forall_forall in Hall. exact (Hall _ Hk).
Qed.

Lemma parse_response_stamped ip name cfg data r :
  Py.assoc name APIS = Some cfg ->
  parse_response ip name cfg data = Return r ->
  is_Some (r !! "ip") /\ r !! "source" = Some (VStr name) /\
  r !! "accuracy" = None /\ r !! "sources" = None.
Proof.
  intros Hcfg H. unfold parse_response in H. repeat split.
  - eapply map_fields_keeps; [exact H|].
    rewrite lookup_insert_ne; [|done]. rewrite lookup_insert_eq. eauto.
  - erewrite map_fields_other; [|exact H| |done|done].
    + by rewrite lookup_insert_eq.
    + eapply APIS_fields_avoid; [exact Hcfg|set_solver].
  - erewrite map_fields_other; [|exact H| |done|done].
    + done.
    + eapply APIS_fields_avoid; [exact Hcfg|set_solver].
  - erewrite map_fields_other; [|exact H| |done|done].
    + done.
    + eapply APIS_fields_avoid; [exact Hcfg|set_solver].
Qed.

Lemma provider_answer_run ra net ip name w :
  get_location_by_ip ra net ip name w
  = (Return (provider_answer ra net ip name), logged (request_url ip name) w).
Proof.
  unfold provider_answer, request_url.
  destruct (get_location_by_ip_run ra net ip name w) as (cfg & Hcfg & ->).
  destruct (get_location_by_ip_run ra net ip name empty_world) as (cfg' & Hcfg' & ->).
  rewrite Hcfg in Hcfg' |- *. by inversion Hcfg'.
Qed.

Lemma provider_answer_stamped ra net ip name r :
  provider_answer ra net ip name = Some r ->
  is_Some (r !! "ip") /\ r !! "source" = Some (VStr (known_or_default name)) /\
  r !! "accuracy" = None /\ r !! "sources" = None.
Proof.
  unfold provider_answer.
  destruct (get_location_by_ip_run ra net ip name empty_world) as (cfg & Hcfg & ->).
  simpl. unfold provider_record.
  destruct (fetched ra net _) as [data|]; [|done].
  destruct (parse_response _ _ _ _) as [r'|] eqn:E; [|done].
  intros [= ->]. eapply parse_response_stamped; eauto.
Qed.

Lemma provider_answer_truthy ra net ip name r :
  provider_answer ra net ip name = Some r -> truthy (Some r) = true.
Proof.
  intros H. apply provider_answer_stamped in H as ([v Hv] & _).
  simpl. rewrite bool_decide_eq_false_2; [done|].
  intros ->. by rewrite lookup_empty in Hv.
Qed.

(** ** The loop collects exactly the answers, one request per provider *)

Lemma collect_run ra net ip names : forall results w,
  collect ra net ip names results w
  = (Return (results ++ omap (provider_answer ra net ip) names),
     {| requests := requests w ++ map (request_url ip) names;
        tracking_history := tracking_history w |}).
Proof.
  induction names as [|name names IH]; intros results w.
  - simpl. unfold ret. rewrite !app_nil_r. by destruct w.
  - cbn [collect]. unfold bind. rewrite provider_answer_run.
    cbn [omap list_omap map].
    destruct (provider_answer ra net ip name) as [r|] eqn:E.
    + rewrite (provider_answer_truthy _ _ _ _ _ E), IH. simpl.
      by rewrite <- !app_assoc.
    + rewrite IH. simpl. by rewrite <- !app_assoc.
Qed.

Lemma reconcile_returns results : exists res, reconcile results = Return res.
Proof.
  unfold reconcile. destruct results as [|first rest]; [eauto|].
  destruct (if (1 <? _)%Z then _ else _); eauto.
Qed.

Lemma get_location_multi_source_run ra net ip w :
  get_location_multi_source ra net ip w
  = (reconcile (successful_records ra net ip),
     {| requests := requests w ++ map (request_url ip) (map fst APIS);
        tracking_history := tracking_history w |}).
Proof.
  unfold get_location_multi_source, bind, lift.
  rewrite collect_run. reflexivity.
Qed.

(** ** The two ways reconciliation ends *)

Lemma truediv_float a b v : Py.truediv a b = Return v -> exists f, v = VFloat f.
Proof.
  unfold Py.truediv, Py.float_div.
  destruct (Py.as_number a) as [[x|f]|], (Py.as_number b) as [[y|g]|];
    try discriminate; simpl;
    repeat match goal with
           | |- context [obind ?c _] => destruct c; simpl
           | |- context [if ?c then _ else _] => destruct c
           end;
    intros [= <-] || discriminate; eauto.
Qed.

Lemma mean_float values v : mean values = Return v -> exists f, v = VFloat f.
Proof.
  unfold mean. destruct (Py.sum values); simpl; [|done].
  apply truediv_float.
Qed.

Lemma average_Some results r :
  average results = Return (Some r) ->
  exists first rest la lo,
    results = first :: rest /\
    mean (column "lat" results) = Return (VFloat la) /\
    mean (column "lon" results) = Return (VFloat lo) /\
    r = averaged results first (VFloat la) (VFloat lo).
Proof.
  unfold average. destruct (negb _ && negb _); [|done].
  destruct (mean (column "lat" results)) as [la|] eqn:Ela; simpl; [|done].
  destruct (mean (column "lon" results)) as [lo|] eqn:Elo; simpl; [|done].
  destruct results as [|first rest]; simpl; [done|].
  intros [= <-].
  destruct (mean_float _ _ Ela) as [fa ->].
  destruct (mean_float _ _ Elo) as [fo ->].
  by exists first, rest, fa, fo.
Qed.

Lemma reconcile_Some results r :
  reconcile results = Return (Some r) ->
  exists first rest,
    results = first :: rest /\
    ((exists la lo,
         mean (column "lat" results) = Return (VFloat la) /\
         mean (column "lon" results) = Return (VFloat lo) /\
         r = averaged results first (VFloat la) (VFloat lo))
     \/ r = first_medium results first).
Proof.
  unfold reconcile. destruct results as [|first rest]; [done|].
  intros H. exists first, rest. split; [done|].
  destruct (1 <? _)%Z; [|right; by inversion H].
  destruct (average (first :: rest)) as [[r'|]|] eqn:E;
    [|right; by inversion H..].
  inversion H; subst. left.
  apply average_Some in E as (f & t & la & lo & [= <- <-] & Hla & Hlo & ->).
  eauto.
Qed.


(** * The claims *)

(** C1 (as amended).  A result of multi-source resolution has both
    coordinates when it is the averaged one (accuracy high), each of them a
    float; otherwise it is the first successful record with accuracy medium,
    and its [lat] and [lon] entries are exactly those of that record, one of
    which may be missing. *)
Theorem reconciled_coordinates ra net ip w r :
  fst (get_location_multi_source ra net ip w) = Return (Some r) ->
  exists first rest,
    successful_records ra net ip = first :: rest /\
    ((r !! "accuracy" = Some (VStr "high") /\
      exists la lo, r !! "lat" = Some (VFloat la) /\ r !! "lon" = Some (VFloat lo))
     \/ (r !! "accuracy" = Some (VStr "medium") /\
         r !! "lat" = first !! "lat" /\ r !! "lon" = first !! "lon")).
Proof.
  rewrite get_location_multi_source_run. simpl. intros H.
  apply reconcile_Some in H as (first & rest & Hrs & Hr).
  exists first, rest. split; [exact Hrs|].
  destruct Hr as [(la & lo & _ & _ & ->)| ->]; [left|right].
  - unfold averaged. split; [by simplify_map_eq|].
    exists la, lo. by simplify_map_eq.
  - unfold first_medium. by simplify_map_eq.
Qed.

Lemma reconciled_coordinates_witness :
  fst (get_location_multi_source true Samples.net_mixed Samples.ip empty_world)
  = Return (Some Samples.mixed_result) /\
  exists first rest,
    successful_records true Samples.net_mixed Samples.ip = first :: rest /\
    ((Samples.mixed_result !! "accuracy" = Some (VStr "high") /\
      exists la lo, Samples.mixed_result !! "lat" = Some (VFloat la) /\
                    Samples.mixed_result !! "lon" = Some (VFloat lo))
     \/ (Samples.mixed_result !! "accuracy" = Some (VStr "medium") /\
         Samples.mixed_result !! "lat" = first !! "lat" /\
         Samples.mixed_result !! "lon" = first !! "lon")).
Proof.
  assert (H : fst (get_location_multi_source true Samples.net_mixed Samples.ip
                     empty_world) = Return (Some Samples.mixed_result))
    by (vm_compute; reflexivity).
  split; [exact H|].
  exact (reconciled_coordinates true Samples.net_mixed Samples.ip empty_world _ H).
Defined.

(** C1 (as stated) fails: one provider answering with a latitude and no
    longitude gives a result with [lat] and without [lon]. *)
Lemma coordinates_invariant_fails :
  exists r,
    fst (get_location_multi_source true Samples.net_lat_only Samples.ip empty_world)
    = Return (Some r) /\
    r !! "lat" = Some (VFloat 10.5) /\ r !! "lon" = None.
Proof.
  exists (<["sources" := VInt 1]> (<["accuracy" := VStr "medium"]>
            (<["lat" := VFloat 10.5]> (<["city" := VStr "Mountain View"]>
               (<["source" := VStr "ipapi"]>
                  (<["ip" := VStr "8.8.8.8"]> ∅)))))).
  split; [|split]; vm_compute; reflexivity.
Qed.

(** Once [lat] is in the result, the turn for [lon] stores nothing. *)
Lemma lon_skipped_after_lat data result api_field result' :
  map_field data result ("lon", api_field) = Return result' ->
  is_Some (result !! "lat") -> result' = result.
Proof.
  intros H Hlat. unfold map_field in H.
  destruct (Py.contains api_field data) as [[|]|]; simpl in H; [| |done].
  - destruct (Py.getitem data api_field); simpl in H; [|done].
    rewrite bool_decide_eq_true_2 in H by done. simpl in H. by inversion H.
  - by inversion H.
Qed.

Lemma map_field_other_field data result field api_field result' k :
  map_field data result (field, api_field) = Return result' ->
  field <> "lat" -> k <> field -> result' !! k = result !! k.
Proof.
  intros H Hf Hk. unfold map_field in H.
  destruct (String.eqb_spec field "lat") as [|_]; [done|].
  cbn [andb] in H.
  map_field_cases H; try reflexivity; by rewrite lookup_insert_ne.
Qed.

Lemma map_fields_no_coordinate data entries : forall result result',
  map_fields data result entries = Return result' ->
  Forall (fun entry => fst entry <> "lat" /\ fst entry <> "lon") entries ->
  result' !! "lat" = result !! "lat" /\ result' !! "lon" = result !! "lon".
Proof.
  induction entries as [|[field api_field] rest IH];
    intros result result' H Hall; simpl in H.
  - by inversion H; subst.
  - destruct (map_field data result (field, api_field)) as [r1|] eqn:E;
      simpl in H; [|done].
    inversion Hall as [|? ? [Hlat Hlon] Htl]; subst. simpl in Hlat, Hlon.
    destruct (IH _ _ H Htl) as [-> ->].
    split; eapply map_field_other_field; eauto.
Qed.

Lemma map_fields_app data l1 : forall l2 result,
  map_fields data result (l1 ++ l2)
  = (r1 <- map_fields data result l1;; map_fields data r1 l2).
Proof.
  induction l1 as [|entry l1 IH]; intros l2 result; simpl; [done|].
  destruct (map_field data result entry); simpl; [apply IH|done].
Qed.

(** A numeric latitude goes in as a float. *)
Lemma map_field_lat_number d result api_field v result' :
  Py.assoc api_field d = Some v -> Py.is_number v = true ->
  map_field (VDict d) result ("lat", api_field) = Return result' ->
  exists f, Py.to_float v = Return f /\ result' = <["lat" := VFloat f]> result.
Proof.
  intros Hv Hnum H. unfold map_field in H. simpl in H. rewrite Hv in H.
  rewrite bool_decide_eq_true_2 in H by eauto. simpl in H.
  assert (Hstr : Py.is_str v = false) by (by destruct v).
  rewrite Hstr, Hnum in H. simpl in H.
  destruct (Py.to_float v) as [f|]; simpl in H; [|done].
  exists f. by inversion H.
Qed.

(** Separate fields for the two coordinates, the latitude a number: the
    longitude never reaches the record. *)
Lemma separate_fields_drop_lon d pre post lat_field lon_field va r0 r :
  Forall (fun entry => fst entry <> "lat" /\ fst entry <> "lon") pre ->
  Forall (fun entry => fst entry <> "lat" /\ fst entry <> "lon") post ->
  r0 !! "lon" = None ->
  Py.assoc lat_field d = Some va -> Py.is_number va = true ->
  map_fields (VDict d) r0 (pre ++ ("lat", lat_field) :: ("lon", lon_field) :: post)
  = Return r ->
  (exists f, Py.to_float va = Return f /\ r !! "lat" = Some (VFloat f)) /\
  r !! "lon" = None.
Proof.
  intros Hpre Hpost Hlon0 Hva Hnum H.
  rewrite map_fields_app in H.
  destruct (map_fields (VDict d) r0 pre) as [r1|] eqn:E1; simpl in H; [|done].
  destruct (map_fields_no_coordinate _ _ _ _ E1 Hpre) as [_ Hlon1].
  destruct (map_field (VDict d) r1 ("lat", lat_field)) as [r2|] eqn:E2;
    simpl in H; [|done].
  destruct (map_field_lat_number _ _ _ _ _ Hva Hnum E2) as (f & Hf & ->).
  destruct (map_field (VDict d) _ ("lon", lon_field)) as [r3|] eqn:E3;
    simpl in H; [|done].
  apply lon_skipped_after_lat in E3; [|by rewrite lookup_insert_eq]. subst r3.
  destruct (map_fields_no_coordinate _ _ _ _ H Hpost) as [-> ->].
  split; [exists f; split; [done|by rewrite lookup_insert_eq]|].
  rewrite lookup_insert_ne by done. congruence.
Qed.

(** C2 (defect of the code).  For a provider of the table that maps [lat]
    and [lon] to distinct fields, and a body that supplies both as numbers,
    the record returned holds [lat] as a float and no [lon]: the skip meant
    for the combined field fires because [lat] is already in the result. *)
Theorem separate_longitude_dropped ra net ip name cfg lat_field lon_field d va vo w r :
  Py.assoc name APIS = Some cfg ->
  Py.assoc "lat" (fields cfg) = Some lat_field ->
  Py.assoc "lon" (fields cfg) = Some lon_field ->
  lat_field <> lon_field ->
  fetched ra net (format_ip (url cfg) ip) = Return (VDict d) ->
  Py.assoc lat_field d = Some va -> Py.is_number va = true ->
  Py.assoc lon_field d = Some vo -> Py.is_number vo = true ->
  fst (get_location_by_ip ra net ip name w) = Return (Some r) ->
  (exists f, Py.to_float va = Return f /\ r !! "lat" = Some (VFloat f)) /\
  r !! "lon" = None.
Proof.
  intros Hcfg Hlat Hlon Hne Hnet Hva Hna Hvo Hno.
  destruct (get_location_by_ip_run ra net ip name w) as (cfg' & Hcfg' & ->).
  rewrite (known_or_default_known _ _ Hcfg) in *.
  rewrite Hcfg in Hcfg'. inversion Hcfg'; subst cfg'. clear Hcfg'.
  simpl. unfold provider_record. rewrite Hnet.
  destruct (parse_response _ _ _ _) as [r'|] eqn:E; [|done].
  intros [= ->]. unfold parse_response in E.
  apply assoc_Some_elem in Hcfg. simpl in Hcfg.
  repeat (apply elem_of_cons in Hcfg as [-> | Hcfg]);
    [| | |by apply elem_of_nil in Hcfg];
    simpl in Hlat, Hlon; inversion Hlat; inversion Hlon; subst; try done.
  - eapply (separate_fields_drop_lon d
              [("ip", "ip"); ("city", "city"); ("region", "region");
               ("country", "country_name")]
              [("isp", "org"); ("timezone", "timezone")]);
      [repeat constructor; discriminate..| |exact Hva|exact Hna|exact E].
    by simplify_map_eq.
  - eapply (separate_fields_drop_lon d
              [("ip", "query"); ("city", "city"); ("region", "regionName");
               ("country", "country")]
              [("isp", "isp"); ("timezone", "timezone")]);
      [repeat constructor; discriminate..| |exact Hva|exact Hna|exact E].
    by simplify_map_eq.
Qed.

Lemma separate_longitude_dropped_witness :
  fst (get_location_by_ip true Samples.net_separate Samples.ip "ipapi" empty_world)
  = Return (Some Samples.separate_record) /\
  (exists f, Py.to_float (VInt 10) = Return f /\
             Samples.separate_record !! "lat" = Some (VFloat f)) /\
  Samples.separate_record !! "lon" = None.
Proof.
  assert (H : fst (get_location_by_ip true Samples.net_separate Samples.ip "ipapi"
                     empty_world) = Return (Some Samples.separate_record))
    by (vm_compute; reflexivity).
  split; [exact H|].
  refine (separate_longitude_dropped true Samples.net_separate Samples.ip "ipapi"
            _ "latitude" "longitude"
            [("latitude", VInt 10); ("longitude", VInt 20)]
            (VInt 10) (VInt 20) empty_world _ eq_refl eq_refl eq_refl _
            eq_refl eq_refl eq_refl eq_refl eq_refl H).
  discriminate.
Defined.

(** ** Two given records *)

Lemma reconcile_two_averaged (rA rB : record) la lo :
  mean (column "lat" [rA; rB]) = Return (VFloat la) ->
  mean (column "lon" [rA; rB]) = Return (VFloat lo) ->
  column "lat" [rA; rB] <> [] -> column "lon" [rA; rB] <> [] ->
  reconcile [rA; rB]
  = Return (Some (averaged [rA; rB] rA (VFloat la) (VFloat lo))).
Proof.
  intros Hla Hlo Hna Hno. unfold reconcile, average.
  cbn [length Z.of_nat]. change (1 <? _)%Z with true. cbv iota.
  rewrite !bool_decide_eq_false_2 by done. cbn [negb andb].
  rewrite Hla, Hlo. reflexivity.
Qed.

(** C3.  For two records with [lat] 10 and 12 and [lon] 20 and 22, written
    as integers or as floats, reconciliation returns the first record with
    [lat] = 11.0, [lon] = 21.0, [accuracy] = "high" and [sources] = 2, every
    other key being that of the first record; and whenever a result is the
    averaged one, each coordinate is the mean over the values of the records
    that have that coordinate. *)
Theorem reconcile_two_agreeing (rA rB : record) a1 o1 a2 o2 :
  rA !! "lat" = Some a1 -> rA !! "lon" = Some o1 ->
  rB !! "lat" = Some a2 -> rB !! "lon" = Some o2 ->
  numeral 10 a1 -> numeral 20 o1 -> numeral 12 a2 -> numeral 22 o2 ->
  reconcile [rA; rB]
  = Return (Some (<["sources" := VInt 2]>
                 (<["accuracy" := VStr "high"]>
                 (<["lon" := VFloat 21]> (<["lat" := VFloat 11]> rA))))) /\
  (forall k, k ∉ ["lat"; "lon"; "accuracy"; "sources"] ->
     forall r, reconcile [rA; rB] = Return (Some r) -> r !! k = rA !! k) /\
  (forall results r,
     reconcile results = Return (Some r) ->
     r !! "accuracy" = Some (VStr "high") ->
     exists la lo,
       mean (column "lat" results) = Return la /\
       mean (column "lon" results) = Return lo /\
       r !! "lat" = Some la /\ r !! "lon" = Some lo).
Proof.
  intros HA1 HO1 HA2 HO2 N1 N2 N3 N4.
  assert (Hrec : reconcile [rA; rB]
    = Return (Some (averaged [rA; rB] rA (VFloat 11) (VFloat 21)))).
  { apply reconcile_two_averaged; unfold column; cbn [omap list_omap];
      rewrite ?HA1, ?HO1, ?HA2, ?HO2; cbn [mbind option_bind]; try done.
    - destruct N1 as [-> | ->], N3 as [-> | ->]; vm_compute; reflexivity.
    - destruct N2 as [-> | ->], N4 as [-> | ->]; vm_compute; reflexivity. }
  split; [exact Hrec|split].
  - intros k Hk r. rewrite Hrec. intros [= <-]. unfold averaged.
    rewrite !lookup_insert_ne; [done|set_solver..].
  - intros results r H Hacc.
    apply reconcile_Some in H as (first & rest & -> & [(la & lo & Hla & Hlo & ->)| ->]).
    + exists (VFloat la), (VFloat lo). unfold averaged.
      repeat split; try done; by simplify_map_eq.
    + unfold first_medium in Hacc. by simplify_map_eq.
Qed.

Lemma reconcile_two_agreeing_witness :
  reconcile [Samples.recA; Samples.recB]
  = Return (Some (<["sources" := VInt 2]>
                 (<["accuracy" := VStr "high"]>
                 (<["lon" := VFloat 21]> (<["lat" := VFloat 11]> Samples.recA))))) /\
  (forall k, k ∉ ["lat"; "lon"; "accuracy"; "sources"] ->
     forall r, reconcile [Samples.recA; Samples.recB] = Return (Some r) ->
     r !! k = Samples.recA !! k) /\
  (forall results r,
     reconcile results = Return (Some r) ->
     r !! "accuracy" = Some (VStr "high") ->
     exists la lo,
       mean (column "lat" results) = Return la /\
       mean (column "lon" results) = Return lo /\
       r !! "lat" = Some la /\ r !! "lon" = Some lo).
Proof.
  apply (reconcile_two_agreeing Samples.recA Samples.recB
           (VInt 10) (VInt 20) (VInt 12) (VInt 22));
    first [ reflexivity | left; reflexivity ].
Defined.

(** C4 (as amended).  When the first record has no coordinate and the second
    has [lat] = 1 and [lon] = 1, both coordinate lists are non-empty, so the
    averaging branch is taken: the result is the first record (its [city]
    and other keys) with [lat] = 1.0 and [lon] = 1.0 taken from the second,
    [accuracy] = "high" and [sources] = 2. *)
Theorem reconcile_coordinates_from_second (rA rB : record) a o :
  rA !! "lat" = None -> rA !! "lon" = None ->
  rB !! "lat" = Some a -> rB !! "lon" = Some o ->
  numeral 1 a -> numeral 1 o ->
  reconcile [rA; rB]
  = Return (Some (<["sources" := VInt 2]>
                 (<["accuracy" := VStr "high"]>
                 (<["lon" := VFloat 1]> (<["lat" := VFloat 1]> rA))))).
Proof.
  intros HA HO Ha Ho Na No.
  apply (reconcile_two_averaged rA rB 1%float 1%float);
    unfold column; cbn [omap list_omap];
    rewrite ?HA, ?HO, ?Ha, ?Ho; cbn [mbind option_bind]; try done.
  - destruct Na as [-> | ->]; vm_compute; reflexivity.
  - destruct No as [-> | ->]; vm_compute; reflexivity.
Qed.

Lemma reconcile_coordinates_from_second_witness :
  reconcile [Samples.recX; Samples.recB1]
  = Return (Some (<["sources" := VInt 2]>
                 (<["accuracy" := VStr "high"]>
                 (<["lon" := VFloat 1]> (<["lat" := VFloat 1]> Samples.recX))))).
Proof.
  apply (reconcile_coordinates_from_second Samples.recX Samples.recB1
           (VInt 1) (VInt 1));
    first [ reflexivity | left; reflexivity ].
Defined.

(** C4 (as stated) fails: on [{city: "X", source: A}, {lat: 1, lon: 1,
    source: B}] the result keeps city "X" and sources 2 but its accuracy is
    "high", not "medium", and it carries the second record's coordinates. *)
Lemma fallback_scenario_is_averaged :
  exists r,
    reconcile [Samples.recX; Samples.recB1] = Return (Some r) /\
    r !! "city" = Some (VStr "X") /\
    r !! "sources" = Some (VInt 2) /\
    r !! "accuracy" = Some (VStr "high") /\
    r !! "accuracy" <> Some (VStr "medium") /\
    r !! "lat" = Some (VFloat 1) /\ r !! "lon" = Some (VFloat 1).
Proof.
  exists (<["sources" := VInt 2]> (<["accuracy" := VStr "high"]>
            (<["lon" := VFloat 1]> (<["lat" := VFloat 1]> Samples.recX)))).
  split; [vm_compute; reflexivity|].
  repeat split; try (vm_compute; reflexivity).
  vm_compute. discriminate.
Qed.

(** ** The address key *)

(** Every provider maps [ip] first, and once. *)
Lemma APIS_ip_first name cfg :
  Py.assoc name APIS = Some cfg ->
  exists api_field rest,
    fields cfg = ("ip", api_field) :: rest /\
    Forall (fun entry => "ip" <> fst entry) rest.
Proof.
  intros Hcfg. apply assoc_Some_elem in Hcfg. simpl in Hcfg.
  repeat (apply elem_of_cons in Hcfg as [-> | Hcfg]);
    [| | |by apply elem_of_nil in Hcfg];
    simpl; do 2 eexists; (split; [reflexivity|]);
    repeat constructor; discriminate.
Qed.

Lemma map_field_ip data result api_field result' v0 :
  map_field data result ("ip", api_field) = Return result' ->
  result !! "ip" = Some v0 ->
  result' !! "ip"
  = Some (default v0 (match data with
                      | VDict d => Py.assoc api_field d
                      | _ => None
                      end)).
Proof.
  intros H H0. unfold map_field in H.
  destruct data as [| | | | s | l | d]; simpl in H; try done.
  - destruct (PyStr.is_substring api_field s); simpl in H; [done|].
    by inversion H; subst.
  - destruct (existsb _ l); simpl in H; [done|]. by inversion H; subst.
  - destruct (Py.assoc api_field d) as [v|] eqn:E; simpl in H.
    + inversion H; subst. by rewrite lookup_insert_eq.
    + by inversion H; subst.
Qed.

Lemma parse_response_ip ip name name' cfg data r :
  Py.assoc name' APIS = Some cfg ->
  parse_response ip name cfg data = Return r ->
  r !! "ip" = Some (default (VStr ip) (native_ip cfg data)).
Proof.
  intros Hcfg H.
  destruct (APIS_ip_first _ _ Hcfg) as (api_field & rest & Hf & Hrest).
  unfold parse_response in H. rewrite Hf in H. cbn [map_fields] in H.
  destruct (map_field data _ ("ip", api_field)) as [r1|] eqn:E1;
    simpl in H; [|done].
  rewrite (map_fields_other _ _ "ip" _ _ H Hrest) by done.
  erewrite map_field_ip; [|exact E1|by simplify_map_eq].
  unfold native_ip. rewrite Hf. simpl. by destruct data.
Qed.

(** C5 (as amended).  A record returned by the per-provider call has
    [source] equal to the identifier of the provider used (the default one
    for an unknown name); its [ip] is the queried address unless the decoded
    body is an object that has the provider's own address field, in which
    case [ip] is the value found there. *)
Theorem record_ip_and_source ra net ip name w r :
  fst (get_location_by_ip ra net ip name w) = Return (Some r) ->
  exists cfg data,
    Py.assoc (known_or_default name) APIS = Some cfg /\
    fetched ra net (format_ip (url cfg) ip) = Return data /\
    r !! "source" = Some (VStr (known_or_default name)) /\
    r !! "ip" = Some (default (VStr ip) (native_ip cfg data)).
Proof.
  destruct (get_location_by_ip_run ra net ip name w) as (cfg & Hcfg & ->).
  simpl. unfold provider_record.
  destruct (fetched ra net _) as [data|] eqn:Enet; [|done].
  destruct (parse_response _ _ _ _) as [r'|] eqn:E; [|done].
  intros [= ->]. exists cfg, data. repeat split; try done.
  - by apply (parse_response_stamped _ _ _ _ _ Hcfg E).
  - by apply (parse_response_ip _ _ _ _ _ _ Hcfg E).
Qed.

Lemma record_ip_and_source_witness :
  exists cfg data,
    Py.assoc (known_or_default "ipapi") APIS = Some cfg /\
    fetched true Samples.net_echo (format_ip (url cfg) Samples.ip) = Return data /\
    Samples.echo_record !! "source" = Some (VStr (known_or_default "ipapi")) /\
    Samples.echo_record !! "ip"
    = Some (default (VStr Samples.ip) (native_ip cfg data)).
Proof.
  apply (record_ip_and_source true Samples.net_echo Samples.ip "ipapi" empty_world).
  vm_compute. reflexivity.
Defined.

(** C5 (as stated) fails: a body that echoes 9.9.9.9 for the query 8.8.8.8
    yields a record whose [ip] is 9.9.9.9. *)
Lemma echoed_ip_overrides_query :
  fst (get_location_by_ip true Samples.net_echo Samples.ip "ipapi" empty_world)
  = Return (Some Samples.echo_record) /\
  Samples.echo_record !! "ip" = Some (VStr "9.9.9.9") /\
  Samples.echo_record !! "ip" <> Some (VStr Samples.ip).
Proof.
  split; [vm_compute; reflexivity|]. split; [vm_compute; reflexivity|].
  vm_compute. discriminate.
Qed.

(** ** Failures of providers *)

(** X1.  Whatever the network answers, multi-source resolution raises nothing
    and returns what reconciliation gives on the records of the providers
    whose call returned one, in the order of the table; every provider is
    asked once, in that order, whether or not an earlier one failed. *)
Lemma failures_are_isolated ra net ip w :
  exists res,
    reconcile (successful_records ra net ip) = Return res /\
    get_location_multi_source ra net ip w
    = (Return res,
       {| requests := requests w ++ map (request_url ip) (map fst APIS);
          tracking_history := tracking_history w |}).
Proof.
  destruct (reconcile_returns (successful_records ra net ip)) as [res Hres].
  exists res. split; [exact Hres|].
  rewrite get_location_multi_source_run. by rewrite Hres.
Qed.

(** With [urllib] the call returns a record exactly when the adapter of the
    specification does not fail, the body being read alike by both
    decoders. *)
Lemma urllib_answer_is_adapter_record net ip name :
  decoders_agree net ->
  provider_answer false net ip name = adapter_record net ip name.
Proof.
  intros Hdec. unfold provider_answer, adapter_record.
  destruct (get_location_by_ip_run false net ip name empty_world)
    as (cfg & Hcfg & ->).
  rewrite Hcfg. simpl. unfold provider_record, fetched.
  destruct (net _) as [r|] eqn:E; simpl; [|done].
  rewrite (Hdec _ _ E).
  destruct (_ && _); simpl; [|done]. by destruct (json r).
Qed.

Lemma urllib_isolates_failures net ip w :
  decoders_agree net ->
  fst (get_location_multi_source false net ip w)
  = reconcile (answering_records net ip).
Proof.
  intros Hdec. rewrite get_location_multi_source_run. simpl. f_equal.
  unfold successful_records, answering_records.
  apply list_omap_ext, Forall2_same_length_lookup_2; [done|].
  intros i x y Hx Hy. rewrite Hx in Hy. inversion Hy; subst.
  by apply urllib_answer_is_adapter_record.
Qed.

(** C6 (defect of the code, evaluated).  With the [requests] transport, a
    provider that answers an HTTP error status with a JSON body is not a
    failure for the code: ipapi's refusal (429) contributes the record
    {ip, source}, which becomes the base of the result, with [sources] = 2,
    where reconciling the one provider that did answer gives ipinfo's record
    with [sources] = 1.  With [urllib] the same network gives the latter. *)
Theorem http_error_counted_as_answer :
  fst (get_location_multi_source true Samples.net_rate_limited Samples.ip
         empty_world)
  = Return (Some Samples.rate_limited_result) /\
  reconcile (answering_records Samples.net_rate_limited Samples.ip)
  = Return (Some Samples.ipinfo_alone_result) /\
  fst (get_location_multi_source false Samples.net_rate_limited Samples.ip
         empty_world)
  = Return (Some Samples.ipinfo_alone_result) /\
  Samples.rate_limited_result !! "source" = Some (VStr "ipapi") /\
  Samples.ipinfo_alone_result !! "source" = Some (VStr "ipinfo") /\
  Samples.rate_limited_result !! "sources" = Some (VInt 2) /\
  Samples.ipinfo_alone_result !! "sources" = Some (VInt 1).
Proof. repeat split; vm_compute; reflexivity. Qed.

(** If the per-provider call returns [None] for every configured provider,
    multi-source resolution returns [None]: no exception, no record. *)
Lemma all_providers_fail ra net ip w :
  Forall (fun api_name =>
            forall w', fst (get_location_by_ip ra net ip api_name w') = Return None)
         (map fst APIS) ->
  fst (get_location_multi_source ra net ip w) = Return None.
Proof.
  intros Hall. rewrite get_location_multi_source_run. simpl.
  assert (Hnil : successful_records ra net ip = []).
  { unfold successful_records. induction Hall as [|name names Hname _ IH];
      [reflexivity|].
    cbn [omap list_omap]. unfold provider_answer at 1.
    rewrite (Hname empty_world). exact IH. }
  by rewrite Hnil.
Qed.

Lemma all_providers_fail_witness :
  fst (get_location_multi_source true Samples.net_down Samples.ip empty_world)
  = Return None.
Proof.
  apply (all_providers_fail true Samples.net_down Samples.ip empty_world).
  repeat constructor; intros w';
    rewrite (get_location_by_ip_world _ _ _ _ w' empty_world);
    vm_compute; reflexivity.
Defined.

(** C7 (defect of the code, evaluated).  With the [requests] transport,
    providers that all fail with an HTTP error status and a JSON body are
    not failures for the code: when each of the three answers status 500,
    no provider answers in the sense of the specification, and the result
    is the record {ip, source: ipapi, accuracy: medium, sources: 3} where
    [None] is due.  With [urllib] the same network gives [None]. *)
Theorem server_errors_give_a_record :
  answering_records Samples.net_all_500 Samples.ip = [] /\
  fst (get_location_multi_source true Samples.net_all_500 Samples.ip
         empty_world)
  = Return (Some Samples.all_500_result) /\
  requests (snd (get_location_multi_source true Samples.net_all_500
                   Samples.ip empty_world))
  = [ "https://ipapi.co/8.8.8.8/json/"; "https://ipinfo.io/8.8.8.8/json";
      "http://ip-api.com/json/8.8.8.8" ] /\
  fst (get_location_multi_source false Samples.net_all_500 Samples.ip
         empty_world)
  = Return None.
Proof. repeat split; vm_compute; reflexivity. Qed.

(** C9.  A provider name that is not in the table is served with the
    configuration of ipapi, the default, and the call returns normally; a
    name that is in the table is served with its own configuration. *)
Theorem unknown_provider_uses_default ra net ip name w :
  (Py.assoc name APIS = None ->
   exists cfg,
     Py.assoc "ipapi" APIS = Some cfg /\
     get_location_by_ip ra net ip name w = query_provider ra net ip "ipapi" cfg w /\
     exists result w', get_location_by_ip ra net ip name w = (Return result, w')) /\
  (forall cfg,
     Py.assoc name APIS = Some cfg ->
     get_location_by_ip ra net ip name w = query_provider ra net ip name cfg w).
Proof.
  split.
  - intros Hnone. eexists. split; [reflexivity|]. split.
    + unfold get_location_by_ip.
      by rewrite (known_or_default_unknown _ Hnone).
    + destruct (get_location_by_ip_run ra net ip name w) as (c & _ & ->). eauto.
  - intros cfg Hcfg. unfold get_location_by_ip.
    rewrite (known_or_default_known _ _ Hcfg). by rewrite Hcfg.
Qed.

Lemma unknown_provider_uses_default_witness :
  (exists cfg,
     Py.assoc "ipapi" APIS = Some cfg /\
     get_location_by_ip true Samples.net_echo Samples.ip "ipapy" empty_world
     = query_provider true Samples.net_echo Samples.ip "ipapi" cfg empty_world /\
     exists result w',
       get_location_by_ip true Samples.net_echo Samples.ip "ipapy" empty_world
       = (Return result, w')) /\
  (exists cfg,
     Py.assoc "ipinfo" APIS = Some cfg /\
     get_location_by_ip true Samples.net_echo Samples.ip "ipinfo" empty_world
     = query_provider true Samples.net_echo Samples.ip "ipinfo" cfg empty_world).
Proof.
  split.
  - apply (unknown_provider_uses_default true Samples.net_echo Samples.ip "ipapy"
             empty_world). reflexivity.
  - eexists. split; [reflexivity|].
    apply (unknown_provider_uses_default true Samples.net_echo Samples.ip "ipinfo"
             empty_world). reflexivity.
Defined.

(** A record returned by multi-source resolution has the keys [ip] and
    [source], an [accuracy] that is "high" or "medium", and [sources] equal
    to the number of per-provider calls that returned a record, whichever
    branch built it. *)
Lemma result_keys ra net ip w r :
  fst (get_location_multi_source ra net ip w) = Return (Some r) ->
  is_Some (r !! "ip") /\ is_Some (r !! "source") /\
  (r !! "accuracy" = Some (VStr "high") \/ r !! "accuracy" = Some (VStr "medium")) /\
  r !! "sources" = Some (VInt (Z.of_nat (length (successful_records ra net ip)))).
Proof.
  rewrite get_location_multi_source_run. simpl. intros H.
  apply reconcile_Some in H as (first & rest & Hrs & Hr).
  assert (Hfirst : is_Some (first !! "ip") /\ is_Some (first !! "source")).
  { assert (Hin : first ∈ successful_records ra net ip) by (rewrite Hrs; left).
    unfold successful_records in Hin.
    apply list_elem_of_omap in Hin as (name & _ & Hname).
    apply provider_answer_stamped in Hname as (? & -> & _). eauto. }
  destruct Hfirst as [Hip Hsrc].
  destruct Hr as [(la & lo & _ & _ & ->)| ->];
    unfold averaged, first_medium, Py.len;
    repeat split; simplify_map_eq; eauto.
Qed.

Lemma result_keys_witness :
  is_Some (Samples.mixed_result !! "ip") /\
  is_Some (Samples.mixed_result !! "source") /\
  (Samples.mixed_result !! "accuracy" = Some (VStr "high") \/
   Samples.mixed_result !! "accuracy" = Some (VStr "medium")) /\
  Samples.mixed_result !! "sources"
  = Some (VInt (Z.of_nat (length (successful_records true Samples.net_mixed Samples.ip)))).
Proof.
  apply (result_keys true Samples.net_mixed Samples.ip empty_world).
  vm_compute. reflexivity.
Defined.

(** C10 (defect of the code, evaluated).  With the [requests] transport
    [sources] is not the number of providers that answered successfully:
    when ipapi answers, ipinfo refuses with status 429 and a JSON body and
    ip-api times out, one provider answered and [sources] is 2, the refusal
    being counted.  With [urllib] the same network gives [sources] 1.  On
    both, the result has [ip], [source] and an [accuracy] of "medium". *)
Theorem sources_counts_refusals :
  length (answering_records Samples.net_second_refused Samples.ip) = 1%nat /\
  fst (get_location_multi_source true Samples.net_second_refused Samples.ip
         empty_world)
  = Return (Some (Samples.second_refused_result 2)) /\
  Samples.second_refused_result 2 !! "sources" = Some (VInt 2) /\
  fst (get_location_multi_source false Samples.net_second_refused Samples.ip
         empty_world)
  = Return (Some (Samples.second_refused_result 1)) /\
  Samples.second_refused_result 1 !! "sources" = Some (VInt 1).
Proof. repeat split; vm_compute; reflexivity. Qed.

(** ** Splitting on a separator *)

Lemma split_nonempty sep s : PyStr.split sep s <> [].
Proof.
  destruct s as [|c s]; simpl; [done|].
  destruct (Ascii.eqb c sep); [done|]. by destruct (PyStr.split sep s).
Qed.

Lemma split_no_sep sep a :
  PyStr.contains sep a = false -> PyStr.split sep a = [a].
Proof.
  induction a as [|c a IH]; simpl; [done|].
  intros H. apply orb_false_iff in H as [Hc Ha].
  rewrite Hc, (IH Ha). reflexivity.
Qed.

Lemma split_app sep a s :
  PyStr.contains sep a = false ->
  PyStr.split sep (a +:+ String sep s) = a :: PyStr.split sep s.
Proof.
  induction a as [|c a IH]; simpl.
  - intros _. by rewrite Ascii.eqb_refl.
  - intros H. apply orb_false_iff in H as [Hc Ha].
    rewrite Hc, (IH Ha). reflexivity.
Qed.

Lemma split_inv sep : forall s a rest,
  PyStr.split sep s = a :: rest ->
  PyStr.contains sep a = false /\
  (rest = [] /\ s = a \/
   exists s', s = a +:+ String sep s' /\ PyStr.split sep s' = rest).
Proof.
  induction s as [|c s IH]; intros a rest; simpl.
  - intros [= <- <-]. auto.
  - destruct (Ascii.eqb c sep) eqn:Hc.
    + apply Ascii.eqb_eq in Hc as ->. intros [= <- <-].
      split; [done|]. right. by exists s.
    + destruct (PyStr.split sep s) as [|p ps] eqn:Hs;
        [by apply split_nonempty in Hs|].
      intros [= <- <-]. destruct (IH _ _ eq_refl) as [Hp Hrest].
      split; [simpl; by rewrite Hc, Hp|].
      destruct Hrest as [[-> ->]|(s' & -> & Hs')]; [by left|].
      right. by exists s'.
Qed.

Lemma append_char c s : String c EmptyString +:+ s = String c s.
Proof. reflexivity. Qed.

(** Four parts are four dot-free strings joined by three dots. *)
Lemma split_four ip a b c d :
  PyStr.split "." ip = [a; b; c; d] <->
  ip = a +:+ "." +:+ b +:+ "." +:+ c +:+ "." +:+ d /\
  PyStr.contains "." a = false /\ PyStr.contains "." b = false /\
  PyStr.contains "." c = false /\ PyStr.contains "." d = false.
Proof.
  split.
  - intros H.
    apply split_inv in H as [Ha [[? _]|(s1 & -> & H)]]; [done|].
    apply split_inv in H as [Hb [[? _]|(s2 & -> & H)]]; [done|].
    apply split_inv in H as [Hc [[? _]|(s3 & -> & H)]]; [done|].
    apply split_inv in H as [Hd [[_ ->]|(s4 & -> & H)]];
      [done|by apply split_nonempty in H].
  - intros (-> & Ha & Hb & Hc & Hd). rewrite !append_char.
    rewrite (split_app _ _ _ Ha), (split_app _ _ _ Hb), (split_app _ _ _ Hc).
    by rewrite (split_no_sep _ _ Hd).
Qed.

Lemma check_octets_true parts :
  check_octets parts = Return true <->
  Forall (fun part => exists n, PyNum.int_of_str part = Return n /\ 0 <= n <= 255)
         parts.
Proof.
  induction parts as [|part rest IH]; simpl.
  - split; [constructor|done].
  - destruct (PyNum.int_of_str part) as [n|e] eqn:En; simpl.
    + destruct (0 <=? n) eqn:H0, (n <=? 255) eqn:H1; simpl.
      * rewrite IH. split; intros H.
        -- constructor; [exists n; split; [done|lia]|done].
        -- by inversion H.
      * split; [done|]. intros H.
        inversion H as [|? ? (m & Hm & Hr) _]; subst.
        rewrite En in Hm. inversion Hm; subst. lia.
      * split; [done|]. intros H.
        inversion H as [|? ? (m & Hm & Hr) _]; subst.
        rewrite En in Hm. inversion Hm; subst. lia.
      * split; [done|]. intros H.
        inversion H as [|? ? (m & Hm & Hr) _]; subst.
        rewrite En in Hm. inversion Hm; subst. lia.
    + split; [done|]. intros H.
      inversion H as [|? ? (m & Hm & _) _]; subst. by rewrite En in Hm.
Qed.

Lemma validate_ip_true ip :
  _validate_ip ip = true <->
  exists a b c d,
    PyStr.split "." ip = [a; b; c; d] /\ check_octets [a; b; c; d] = Return true.
Proof.
  unfold _validate_ip. split.
  - destruct (PyStr.split "." ip) as [|a [|b [|c [|d [|e l]]]]];
      cbn [length Nat.eqb negb]; try done.
    intros H. exists a, b, c, d. split; [done|].
    by destruct (check_octets [a; b; c; d]) as [[|]|].
  - intros (a & b & c & d & -> & H). cbn [length Nat.eqb negb].
    by rewrite H.
Qed.

(** ** Decimal octets are read by [int] as themselves *)

Lemma digit_not_int_space c d :
  PyStr.digit_of c = Some d -> PyNum.is_int_space c = false.
Proof.
  unfold PyStr.digit_of, PyNum.is_int_space.
  destruct (_ && _)%nat eqn:H; [|done]. intros _.
  apply andb_true_iff in H as [H1 H2].
  apply Nat.leb_le in H1, H2.
  repeat (apply orb_false_iff; split);
    first [ apply andb_false_iff; (left + right); apply Nat.leb_gt; lia
          | apply Nat.eqb_neq; lia ].
Qed.

Lemma digit_range c d : PyStr.digit_of c = Some d -> 0 <= d <= 9.
Proof.
  unfold PyStr.digit_of. destruct (_ && _)%nat eqn:H; [|done].
  apply andb_true_iff in H as [H1 H2]. apply Nat.leb_le in H1, H2.
  intros [= <-]. lia.
Qed.

Lemma digit_not_mark c d m :
  PyStr.digit_of c = Some d -> PyStr.digit_of m = None -> Ascii.eqb c m = false.
Proof.
  intros Hc Hm. destruct (Ascii.eqb_spec c m) as [->|]; [congruence|done].
Qed.

Lemma decimal_value_scan : forall s acc n v,
  decimal_value acc s = Some v ->
  PyStr.scan_digits acc n true s = Some (v, (n + String.length s)%nat, EmptyString).
Proof.
  induction s as [|c s IH]; intros acc n v; simpl.
  - intros [= <-]. by rewrite Nat.add_0_r.
  - destruct (PyStr.digit_of c) as [d|]; simpl; [|done].
    intros H. rewrite (IH _ (S n) _ H). do 3 f_equal. lia.
Qed.

Lemma decimal_value_no_trailing_space : forall s acc v,
  decimal_value acc s = Some v -> PyNum.drop_trailing_space s = s.
Proof.
  induction s as [|c s IH]; intros acc v; simpl; [done|].
  destruct (PyStr.digit_of c) as [d|] eqn:Hd; simpl; [|done].
  intros H. rewrite (IH _ _ H), (digit_not_int_space _ _ Hd). by destruct s.
Qed.

Lemma decimal_value_no_dot : forall s acc v,
  decimal_value acc s = Some v -> PyStr.contains "." s = false.
Proof.
  induction s as [|c s IH]; intros acc v; simpl; [done|].
  destruct (PyStr.digit_of c) as [d|] eqn:Hd; simpl; [|done].
  intros H. by rewrite (digit_not_mark _ _ "." Hd), (IH _ _ H).
Qed.

Lemma decimal_value_bounds : forall s acc v,
  decimal_value acc s = Some v -> 0 <= acc -> 0 <= v.
Proof.
  induction s as [|c s IH]; intros acc v; simpl.
  - intros [= <-]. done.
  - destruct (PyStr.digit_of c) as [d|] eqn:Hd; simpl; [|done].
    intros H Hacc. apply (IH _ _ H). apply digit_range in Hd. lia.
Qed.

(** A run of decimal digits is read as its value, unless it is longer than
    the interpreter's limit. *)
Lemma decimal_octet_int part n :
  part <> EmptyString -> decimal_value 0 part = Some n ->
  Z.of_nat (String.length part) <= PyNum.int_max_str_digits ->
  PyNum.int_of_str part = Return n.
Proof.
  intros Hne Hv Hlen. unfold PyNum.int_of_str.
  destruct part as [|c s]; [done|].
  assert (Hd : exists d, PyStr.digit_of c = Some d).
  { simpl in Hv. destruct (PyStr.digit_of c); [eauto|done]. }
  destruct Hd as [d Hd].
  cbn [PyNum.skip_space]. rewrite (digit_not_int_space _ _ Hd).
  rewrite (decimal_value_no_trailing_space _ _ _ Hv).
  assert (Hsign : PyStr.take_sign (String c s) = (false, String c s)).
  { unfold PyStr.take_sign.
    pose proof (digit_not_mark _ _ "-" Hd eq_refl) as Hm.
    pose proof (digit_not_mark _ _ "+" Hd eq_refl) as Hp.
    destruct c as [[] [] [] [] [] [] [] []]; done. }
  rewrite Hsign. unfold PyStr.digitpart. cbn [PyStr.scan_digits].
  rewrite Hd. simpl in Hv. rewrite Hd in Hv. simpl in Hv.
  rewrite (decimal_value_scan _ _ 1%nat _ Hv).
  cbn [String.length] in Hlen.
  destruct (Z.ltb_spec PyNum.int_max_str_digits
              (Z.of_nat (1 + String.length s))); [lia|done].
Qed.

Lemma decimal_octet_octet part :
  decimal_octet part ->
  Z.of_nat (String.length part) <= PyNum.int_max_str_digits -> octet part.
Proof.
  intros (Hne & n & Hv & Hn) Hlen. split.
  - by apply (decimal_value_no_dot _ _ _ Hv).
  - exists n. split; [by apply decimal_octet_int|].
    pose proof (decimal_value_bounds _ _ _ Hv). lia.
Qed.

Lemma length_append a b :
  String.length (a +:+ b) = (String.length a + String.length b)%nat.
Proof.
  induction a as [|c a IH]; [reflexivity|].
  change (String c a +:+ b) with (String c (a +:+ b)).
  cbn [String.length]. by rewrite IH.
Qed.

(** Validation accepts a string exactly when the string splits on dots
    into four parts that [int] each reads as an integer from 0 to 255. *)
Lemma validate_ip_spec ip :
  _validate_ip ip = true <->
  exists a b c d,
    ip = a +:+ "." +:+ b +:+ "." +:+ c +:+ "." +:+ d /\
    octet a /\ octet b /\ octet c /\ octet d.
Proof.
  rewrite validate_ip_true. unfold octet. split.
  - intros (a & b & c & d & Hsplit & Hcheck). exists a, b, c, d.
    apply split_four in Hsplit as (-> & Ha & Hb & Hc & Hd).
    apply check_octets_true in Hcheck.
    inversion Hcheck as [|? ? Ka H1]; subst.
    inversion H1 as [|? ? Kb H2]; subst.
    inversion H2 as [|? ? Kc H3]; subst.
    inversion H3 as [|? ? Kd _]; subst. done.
  - intros (a & b & c & d & Hip & [Ha Ka] & [Hb Kb] & [Hc Kc] & [Hd Kd]).
    exists a, b, c, d. split; [by apply split_four|].
    apply check_octets_true. by repeat constructor.
Qed.

(** Four decimal octets from 0 to 255 separated by three dots are accepted,
    the string being no longer than the limit on digits. *)
Lemma dotted_quad_accepted ip :
  dotted_quad ip ->
  Z.of_nat (String.length ip) <= PyNum.int_max_str_digits ->
  _validate_ip ip = true.
Proof.
  intros (a & b & c & d & Hip & Ha & Hb & Hc & Hd) Hlen.
  apply validate_ip_spec. exists a, b, c, d. split; [exact Hip|].
  rewrite Hip, !length_append in Hlen.
  split; [|split; [|split]]; apply decimal_octet_octet; try done; lia.
Qed.

(** On a string that validation refuses, [track_ip] returns [None] and
    leaves the world as it was: no request, nothing added to the history. *)
Lemma track_ip_invalid ra net ip w :
  _validate_ip ip = false -> track_ip ra net ip w = (Return None, w).
Proof. intros H. unfold track_ip. by rewrite H. Qed.

Example dotted_quad_accepted_on_a_sample :
  _validate_ip "192.168.0.1" = true /\
  track_ip true Samples.net_mixed "192.168.0.256" empty_world
  = (Return None, empty_world).
Proof.
  split.
  - apply dotted_quad_accepted; [|vm_compute; discriminate].
    exists "192", "168", "0", "1". split; [reflexivity|].
    split; [|split; [|split]].
    + split; [discriminate|]. exists 192. split; [reflexivity|lia].
    + split; [discriminate|]. exists 168. split; [reflexivity|lia].
    + split; [discriminate|]. exists 0. split; [reflexivity|lia].
    + split; [discriminate|]. exists 1. split; [reflexivity|lia].
  - apply track_ip_invalid. vm_compute. reflexivity.
Qed.

(** C8 (defect of the code, evaluated).  Validation reads each part with
    [int], which takes more than decimal octets: "1_0.0.0.0", with an
    underscore between digits, and "+1.2.3.4", with a sign, are accepted
    although neither is four dot-separated decimal octets, and [track_ip]
    sends the text to the three providers as it is. *)
Theorem lenient_octets_accepted :
  _validate_ip "1_0.0.0.0" = true /\ ~ dotted_quad "1_0.0.0.0" /\
  _validate_ip "+1.2.3.4" = true /\ ~ dotted_quad "+1.2.3.4" /\
  requests (snd (track_ip true Samples.net_down "1_0.0.0.0" empty_world))
  = [ "https://ipapi.co/1_0.0.0.0/json/"; "https://ipinfo.io/1_0.0.0.0/json";
      "http://ip-api.com/json/1_0.0.0.0" ].
Proof.
  assert (Hno : forall ip p q r t,
            PyStr.split "." ip = [p; q; r; t] ->
            decimal_value 0 p = None -> ~ dotted_quad ip).
  { intros ip p q r t Hsplit Hp (a & b & c & d & Hip & Ha & Hb & Hc & Hd).
    destruct Ha as (_ & na & Hna & _). destruct Hb as (_ & nb & Hnb & _).
    destruct Hc as (_ & nc & Hnc & _). destruct Hd as (_ & nd & Hnd & _).
    assert (Hs : PyStr.split "." ip = [a; b; c; d]).
    { apply split_four. split; [exact Hip|].
      repeat split; eapply decimal_value_no_dot; eassumption. }
    rewrite Hsplit in Hs. inversion Hs; subst. congruence. }
  split; [reflexivity|]. split; [by eapply Hno|].
  split; [reflexivity|]. split; [by eapply Hno|].
  vm_compute. reflexivity.
Qed.

(** * Further properties of the code *)

(** ** The shape of the field tables *)

(** Every table lists [lat] immediately before [lon], among plain fields. *)
Lemma APIS_fields_shape name cfg :
  Py.assoc name APIS = Some cfg ->
  exists pre post lat_field lon_field,
    fields cfg = pre ++ ("lat", lat_field) :: ("lon", lon_field) :: post /\
    Forall plain pre /\ Forall plain post.
Proof.
  intros Hcfg. apply assoc_Some_elem in Hcfg. simpl in Hcfg.
  repeat (apply elem_of_cons in Hcfg as [-> | Hcfg]);
    [| | |by apply elem_of_nil in Hcfg]; simpl.
  - exists [("ip", "ip"); ("city", "city"); ("region", "region");
            ("country", "country_name")],
           [("isp", "org"); ("timezone", "timezone")], "latitude", "longitude".
    split; [reflexivity|]. split; repeat constructor; discriminate.
  - exists [("ip", "ip"); ("city", "city"); ("region", "region");
            ("country", "country")], [("isp", "org")], "loc", "loc".
    split; [reflexivity|]. split; repeat constructor; discriminate.
  - exists [("ip", "query"); ("city", "city"); ("region", "regionName");
            ("country", "country")],
           [("isp", "isp"); ("timezone", "timezone")], "lat", "lon".
    split; [reflexivity|]. split; repeat constructor; discriminate.
Qed.

(** ** Coordinates of a record: both present means both floats *)

Lemma map_field_lat_typed data result api_field result' :
  map_field data result ("lat", api_field) = Return result' ->
  result !! "lon" = None ->
  result' !! "lon" = None \/
  exists fa fo,
    result' !! "lat" = Some (VFloat fa) /\ result' !! "lon" = Some (VFloat fo).
Proof.
  intros H Hlon.
  map_field_cases H; try (left; by simplify_map_eq);
    right; do 2 eexists; by simplify_map_eq.
Qed.

Lemma map_field_lon_typed data result api_field result' :
  map_field data result ("lon", api_field) = Return result' ->
  (result !! "lon" = None \/
   exists fa fo,
     result !! "lat" = Some (VFloat fa) /\ result !! "lon" = Some (VFloat fo)) ->
  coordinates_typed result'.
Proof.
  intros H Hres. unfold coordinates_typed.
  destruct (result !! "lat") as [v|] eqn:Hlat.
  - apply lon_skipped_after_lat in H; [|by rewrite Hlat]. subst result'.
    rewrite Hlat. destruct Hres as [?|(fa & fo & ? & ?)]; [by left|].
    right. right. eauto.
  - right. left. rewrite <- Hlat.
    eapply map_field_other_field; [exact H|done..].
Qed.

Lemma parse_response_typed ip name cfg data r :
  Py.assoc name APIS = Some cfg ->
  parse_response ip name cfg data = Return r ->
  coordinates_typed r.
Proof.
  intros Hcfg H.
  destruct (APIS_fields_shape _ _ Hcfg) as (pre & post & la & lo & Hf & Hpre & Hpost).
  unfold parse_response in H. rewrite Hf, map_fields_app in H.
  destruct (map_fields data _ pre) as [r1|] eqn:E1; simpl in H; [|done].
  destruct (map_fields_no_coordinate _ _ _ _ E1 Hpre) as [_ Hlon1].
  destruct (map_field data r1 ("lat", la)) as [r2|] eqn:E2; simpl in H; [|done].
  destruct (map_field data r2 ("lon", lo)) as [r3|] eqn:E3; simpl in H; [|done].
  assert (H3 : coordinates_typed r3).
  { eapply map_field_lon_typed; [exact E3|].
    eapply map_field_lat_typed; [exact E2|]. rewrite Hlon1. by simplify_map_eq. }
  destruct (map_fields_no_coordinate _ _ _ _ H Hpost) as [Hlat Hlon].
  unfold coordinates_typed in *. by rewrite Hlat, Hlon.
Qed.

Lemma provider_answer_typed ra net ip name r :
  provider_answer ra net ip name = Some r -> coordinates_typed r.
Proof.
  unfold provider_answer.
  destruct (get_location_by_ip_run ra net ip name empty_world) as (cfg & Hcfg & ->).
  simpl. unfold provider_record.
  destruct (fetched ra net _) as [data|]; [|done].
  destruct (parse_response _ _ _ _) as [r'|] eqn:E; [|done].
  intros [= ->]. eapply parse_response_typed; eauto.
Qed.

Lemma reconcile_typed results r :
  Forall coordinates_typed results ->
  reconcile results = Return (Some r) -> coordinates_typed r.
Proof.
  intros Hall H.
  apply reconcile_Some in H as (first & rest & -> & [(la & lo & _ & _ & ->)| ->]).
  - right. right. exists la, lo. unfold averaged. by simplify_map_eq.
  - inversion Hall as [|? ? Hfirst _]; subst.
    unfold coordinates_typed, first_medium in *. by simplify_map_eq.
Qed.

Lemma successful_records_typed ra net ip :
  Forall coordinates_typed (successful_records ra net ip).
Proof.
  apply Forall_forall. intros r Hr. unfold successful_records in Hr.
  apply list_elem_of_omap in Hr as (name & _ & Hname).
  by apply provider_answer_typed in Hname.
Qed.

Lemma display_typed r :
  coordinates_typed r -> _display_location_info r = Return tt.
Proof.
  unfold _display_location_info.
  intros [Hlon|[Hlat|(fa & fo & -> & ->)]].
  - rewrite Hlon. by destruct (r !! "lat").
  - by rewrite Hlat.
  - reflexivity.
Qed.

Lemma multi_source_resolved ra net ip w :
  get_location_multi_source ra net ip w
  = (Return (resolved ra net ip),
     {| requests := requests w ++ provider_urls ip;
        tracking_history := tracking_history w |}).
Proof.
  rewrite get_location_multi_source_run. unfold resolved.
  by destruct (reconcile_returns (successful_records ra net ip)) as [res ->].
Qed.

Lemma resolved_typed ra net ip r :
  resolved ra net ip = Some r -> coordinates_typed r.
Proof.
  unfold resolved. intros H.
  destruct (reconcile _) as [res|] eqn:E; [|done]. subst res.
  eapply reconcile_typed; [apply successful_records_typed|exact E].
Qed.

Lemma resolved_truthy ra net ip r :
  resolved ra net ip = Some r -> truthy (Some r) = true.
Proof.
  unfold resolved. intros H.
  destruct (reconcile _) as [res|] eqn:E; [|done]. subst res.
  apply reconcile_Some in E as (first & rest & _ & [(la & lo & _ & _ & ->)| ->]);
    simpl; rewrite bool_decide_eq_false_2; try done;
    intros Hempty; apply (f_equal (fun m : record => m !! "sources")) in Hempty;
    unfold averaged, first_medium in Hempty; by simplify_map_eq.
Qed.

Lemma track_ip_run ra net ip w :
  _validate_ip ip = true ->
  track_ip ra net ip w
  = (Return (resolved ra net ip),
     {| requests := requests w ++ provider_urls ip;
        tracking_history :=
          tracking_history w ++ option_list (resolved ra net ip) |}).
Proof.
  intros Hvalid. unfold track_ip. rewrite Hvalid. cbn [negb].
  unfold bind. rewrite multi_source_resolved.
  destruct (resolved ra net ip) as [r|] eqn:E.
  - rewrite (resolved_truthy _ _ _ _ E).
    unfold lift. rewrite (display_typed _ (resolved_typed _ _ _ _ E)).
    reflexivity.
  - unfold ret. simpl. by rewrite app_nil_r.
Qed.

(** ** Normalising an object: plain fields, combined coordinates *)

Lemma contains_of_split sep s x y rest :
  PyStr.split sep s = x :: y :: rest -> PyStr.contains sep s = true.
Proof.
  intros H. destruct (PyStr.contains sep s) eqn:E; [done|].
  by rewrite (split_no_sep _ _ E) in H.
Qed.

Lemma plain_step d result field api_field :
  plain (field, api_field) ->
  map_field (VDict d) result (field, api_field)
  = Return (match Py.assoc api_field d with
            | Some v => <[field := v]> result
            | None => result
            end).
Proof.
  intros [Hlat Hlon]. simpl in Hlat, Hlon. unfold map_field. simpl.
  destruct (String.eqb_spec field "lat") as [|_]; [done|].
  destruct (String.eqb_spec field "lon") as [|_]; [done|].
  by destruct (Py.assoc api_field d) as [v|].
Qed.

Lemma plain_fields_total d entries : forall result,
  Forall plain entries ->
  exists result', map_fields (VDict d) result entries = Return result'.
Proof.
  induction entries as [|[field api_field] rest IH]; intros result Hall; simpl.
  - eauto.
  - inversion Hall as [|? ? Hhd Htl]; subst.
    rewrite (plain_step _ _ _ _ Hhd). simpl. by apply IH.
Qed.

Lemma lon_step_after_lat d result api_field :
  is_Some (result !! "lat") ->
  map_field (VDict d) result ("lon", api_field) = Return result.
Proof.
  intros Hlat. unfold map_field. simpl.
  destruct (Py.assoc api_field d) as [v|]; simpl; [|done].
  by rewrite bool_decide_eq_true_2 by done.
Qed.

Lemma lat_step_pair d result api_field s fx fy :
  Py.assoc api_field d = Some (VStr s) ->
  parse_pair s = Some (fx, fy) ->
  map_field (VDict d) result ("lat", api_field)
  = Return (<["lon" := VFloat fy]> (<["lat" := VFloat fx]> result)).
Proof.
  intros Hs Hpair. unfold map_field, parse_pair in *. simpl. rewrite Hs. simpl.
  destruct (PyStr.split "," s) as [|x [|y [|z l]]] eqn:Hsplit; try done.
  rewrite (contains_of_split _ _ _ _ _ Hsplit). simpl.
  destruct (PyNum.float_of_str (PyStr.strip x)) as [gx|]; [|done].
  destruct (PyNum.float_of_str (PyStr.strip y)) as [gy|]; [|done].
  by inversion Hpair; subst.
Qed.

Lemma lat_step_no_pair d result api_field s :
  Py.assoc api_field d = Some (VStr s) ->
  PyStr.contains "," s = true ->
  parse_pair s = None ->
  exists e, map_field (VDict d) result ("lat", api_field) = Raise e.
Proof.
  intros Hs Hcomma Hpair. unfold map_field, parse_pair in *. simpl.
  rewrite Hs. simpl. rewrite Hcomma. simpl.
  destruct (PyStr.split "," s) as [|x [|y [|z l]]]; eauto.
  destruct (PyNum.float_of_str (PyStr.strip x)) as [gx|]; simpl; eauto.
  destruct (PyNum.float_of_str (PyStr.strip y)) as [gy|]; simpl; eauto.
  done.
Qed.

Lemma assoc_lat_shape pre lat_field rest :
  Forall plain pre ->
  Py.assoc "lat" (pre ++ ("lat", lat_field) :: rest) = Some lat_field.
Proof.
  induction pre as [|[field api_field] pre IH]; intros Hall; [done|].
  inversion Hall as [|? ? [Hlat _] Htl]; subst. simpl in Hlat.
  cbn [app Py.assoc].
  destruct (String.eqb_spec "lat" field) as [<-|_]; [done|]. by apply IH.
Qed.

Lemma call_with_body ra net ip name cfg data w :
  Py.assoc name APIS = Some cfg ->
  fetched ra net (format_ip (url cfg) ip) = Return data ->
  fst (get_location_by_ip ra net ip name w)
  = Return (match parse_response ip name cfg data with
            | Return r => Some r
            | Raise _ => None
            end).
Proof.
  intros Hcfg Hdata.
  destruct (get_location_by_ip_run ra net ip name w) as (cfg' & Hcfg' & ->).
  rewrite (known_or_default_known _ _ Hcfg) in *.
  rewrite Hcfg in Hcfg'. inversion Hcfg'; subst cfg'.
  simpl. unfold provider_record. by rewrite Hdata.
Qed.

Lemma lat_field_of_shape cfg pre post la lo lat_field :
  fields cfg = pre ++ ("lat", la) :: ("lon", lo) :: post ->
  Forall plain pre ->
  Py.assoc "lat" (fields cfg) = Some lat_field -> la = lat_field.
Proof.
  intros Hf Hpre Hlat. rewrite Hf, (assoc_lat_shape _ _ _ Hpre) in Hlat.
  by inversion Hlat.
Qed.

(** X3.  Whatever the provider, when the body is an object whose field for
    [lat] holds a string of exactly two comma-separated parts that [float]
    reads, the call returns a record with those two floats as [lat] and
    [lon]. *)
Theorem combined_field_parsed ra net ip name cfg lat_field d s fx fy w :
  Py.assoc name APIS = Some cfg ->
  Py.assoc "lat" (fields cfg) = Some lat_field ->
  fetched ra net (format_ip (url cfg) ip) = Return (VDict d) ->
  Py.assoc lat_field d = Some (VStr s) ->
  parse_pair s = Some (fx, fy) ->
  exists r,
    fst (get_location_by_ip ra net ip name w) = Return (Some r) /\
    r !! "lat" = Some (VFloat fx) /\ r !! "lon" = Some (VFloat fy).
Proof.
  intros Hcfg Hlat Hdata Hs Hpair.
  destruct (APIS_fields_shape _ _ Hcfg) as (pre & post & la & lo & Hf & Hpre & Hpost).
  pose proof (lat_field_of_shape _ _ _ _ _ _ Hf Hpre Hlat) as ->.
  rewrite (call_with_body _ _ _ _ _ _ _ Hcfg Hdata).
  unfold parse_response. rewrite Hf, map_fields_app.
  destruct (plain_fields_total d pre (stamp ip name) Hpre) as [r1 E1].
  unfold stamp in E1. rewrite E1. cbn [obind map_fields].
  rewrite (lat_step_pair _ _ _ _ _ _ Hs Hpair). cbn [obind].
  rewrite lon_step_after_lat by (by simplify_map_eq). cbn [obind].
  destruct (plain_fields_total d post
              (<["lon" := VFloat fy]> (<["lat" := VFloat fx]> r1)) Hpost)
    as [r E].
  rewrite E. exists r. split; [done|].
  destruct (map_fields_no_coordinate _ _ _ _ E Hpost) as [-> ->].
  by simplify_map_eq.
Qed.

Lemma combined_field_parsed_witness :
  exists r,
    fst (get_location_by_ip true Samples.net_mixed Samples.ip "ipinfo"
           empty_world) = Return (Some r) /\
    r !! "lat" = Some (VFloat 12.5) /\ r !! "lon" = Some (VFloat 22.25).
Proof.
  refine (combined_field_parsed true Samples.net_mixed Samples.ip "ipinfo" _
            "loc" [("city", VStr "Mtn View"); ("loc", VStr "12.5, 22.25")]
            "12.5, 22.25" 12.5 22.25 empty_world
            eq_refl eq_refl eq_refl eq_refl _).
  vm_compute. reflexivity.
Defined.

(** X4.  When that string holds a comma but does not stand for two floats
    (more than two parts, or a part that [float] refuses), the call returns
    [None]: the provider counts as failed, whatever else its body holds. *)
Theorem combined_field_malformed ra net ip name cfg lat_field d s w :
  Py.assoc name APIS = Some cfg ->
  Py.assoc "lat" (fields cfg) = Some lat_field ->
  fetched ra net (format_ip (url cfg) ip) = Return (VDict d) ->
  Py.assoc lat_field d = Some (VStr s) ->
  PyStr.contains "," s = true ->
  parse_pair s = None ->
  fst (get_location_by_ip ra net ip name w) = Return None.
Proof.
  intros Hcfg Hlat Hdata Hs Hcomma Hpair.
  destruct (APIS_fields_shape _ _ Hcfg) as (pre & post & la & lo & Hf & Hpre & Hpost).
  pose proof (lat_field_of_shape _ _ _ _ _ _ Hf Hpre Hlat) as ->.
  rewrite (call_with_body _ _ _ _ _ _ _ Hcfg Hdata).
  unfold parse_response. rewrite Hf, map_fields_app.
  destruct (plain_fields_total d pre (stamp ip name) Hpre) as [r1 E1].
  unfold stamp in E1. rewrite E1. cbn [obind map_fields].
  destruct (lat_step_no_pair d r1 _ _ Hs Hcomma Hpair) as [e ->]. reflexivity.
Qed.

Lemma combined_field_malformed_witness :
  fst (get_location_by_ip true Cases.net_three_parts Cases.ip "ipinfo"
         empty_world) = Return None.
Proof.
  refine (combined_field_malformed true Cases.net_three_parts Cases.ip "ipinfo"
            _ "loc" [("city", VStr "Mtn View"); ("loc", VStr "1,2,3")] "1,2,3"
            empty_world eq_refl eq_refl eq_refl eq_refl eq_refl eq_refl).
Defined.

(** ** Plain fields are copied or left out *)

Lemma APIS_fields_NoDup name cfg :
  Py.assoc name APIS = Some cfg -> NoDup (map fst (fields cfg)).
Proof.
  intros Hcfg. apply assoc_Some_elem in Hcfg. simpl in Hcfg.
  repeat (apply elem_of_cons in Hcfg as [-> | Hcfg]);
    [| | |by apply elem_of_nil in Hcfg];
    apply (bool_decide_unpack _); by vm_compute.
Qed.

Lemma fields_split name cfg field api_field :
  Py.assoc name APIS = Some cfg ->
  (field, api_field) ∈ fields cfg ->
  exists before after,
    fields cfg = before ++ (field, api_field) :: after /\
    Forall (fun entry => field <> fst entry) before /\
    Forall (fun entry => field <> fst entry) after.
Proof.
  intros Hcfg Hin. pose proof (APIS_fields_NoDup _ _ Hcfg) as Hnd.
  apply list_elem_of_split in Hin as (before & after & Hf).
  exists before, after. split; [exact Hf|].
  rewrite Hf, fmap_app, fmap_cons in Hnd. simpl in Hnd.
  apply NoDup_app in Hnd as (_ & Hba & Hafter).
  apply NoDup_cons in Hafter as [Hafter _].
  split; apply Forall_forall; intros [f a] Hfa Heq; simpl in Heq; subst f.
  - apply (Hba field); [by apply (list_elem_of_fmap_2 fst _ (field, a))|left].
  - apply Hafter. by apply (list_elem_of_fmap_2 fst _ (field, a)).
Qed.

Lemma map_field_keys data result field api_field result' k :
  map_field data result (field, api_field) = Return result' ->
  is_Some (result' !! k) ->
  is_Some (result !! k) \/ k = field \/ (field = "lat" /\ k = "lon").
Proof.
  intros H Hk.
  destruct (decide (k = field)) as [->|Hkf]; [right; by left|].
  destruct (decide (field = "lat")) as [->|Hfl].
  - destruct (decide (k = "lon")) as [->|Hklon]; [by right; right|].
    left. by rewrite (map_field_other _ _ _ _ _ k H) in Hk.
  - left. by rewrite (map_field_other_field _ _ _ _ _ k H) in Hk.
Qed.

Lemma map_fields_keys data entries k : forall result result',
  map_fields data result entries = Return result' ->
  is_Some (result' !! k) ->
  is_Some (result !! k) \/ k ∈ map fst entries \/
  ("lat" ∈ map fst entries /\ k = "lon").
Proof.
  induction entries as [|[field api_field] rest IH];
    intros result result' H Hk; simpl in H.
  - inversion H; subst. by left.
  - destruct (map_field data result (field, api_field)) as [r1|] eqn:E;
      simpl in H; [|done].
    destruct (IH _ _ H Hk) as [H1|[H1|[H1 ->]]].
    + destruct (map_field_keys _ _ _ _ _ _ E H1) as [?|[->|[-> ->]]].
      * by left.
      * right. left. simpl. left.
      * right. right. split; [simpl; left|done].
    + right. left. simpl. by right.
    + right. right. split; [simpl; by right|done].
Qed.

(** X5.  For an object body, every plain field of the provider's table
    (neither coordinate, nor [ip]) is in the record exactly when the body
    has the provider's field, with the body's value unchanged; and the
    record has no key besides [ip], [source] and the keys of the table. *)
Theorem plain_fields_copied ra net ip name cfg d w r :
  Py.assoc name APIS = Some cfg ->
  fetched ra net (format_ip (url cfg) ip) = Return (VDict d) ->
  fst (get_location_by_ip ra net ip name w) = Return (Some r) ->
  (forall field api_field,
     (field, api_field) ∈ fields cfg ->
     field <> "lat" -> field <> "lon" -> field <> "ip" ->
     r !! field = Py.assoc api_field d) /\
  (forall k, is_Some (r !! k) ->
             k = "ip" \/ k = "source" \/ k ∈ map fst (fields cfg)).
Proof.
  intros Hcfg Hdata. rewrite (call_with_body _ _ _ _ _ _ _ Hcfg Hdata).
  destruct (parse_response ip name cfg (VDict d)) as [r'|] eqn:E; [|done].
  intros [= ->]. unfold parse_response in E. split.
  - intros field api_field Hin Hlat Hlon Hip.
    destruct (fields_split _ _ _ _ Hcfg Hin) as (before & after & Hf & Hb & Ha).
    assert (Hsrc : field <> "source").
    { pose proof (APIS_fields_avoid _ _ "source" Hcfg) as Hav.
      rewrite Forall_forall in Hav. intros ->.
      by apply (Hav ltac:(set_solver) _ Hin). }
    rewrite Hf, map_fields_app in E.
    destruct (map_fields (VDict d) _ before) as [r1|] eqn:E1; simpl in E; [|done].
    rewrite (plain_step d r1 field api_field) in E by done. simpl in E.
    rewrite (map_fields_other _ _ field _ _ E Ha Hlat Hlon).
    pose proof (map_fields_other _ _ field _ _ E1 Hb Hlat Hlon) as H1.
    rewrite !lookup_insert_ne, lookup_empty in H1 by done.
    destruct (Py.assoc api_field d) as [v|]; [by rewrite lookup_insert_eq|done].
  - intros k Hk.
    destruct (map_fields_keys _ _ _ _ _ E Hk) as [H0|[H0|[_ ->]]].
    + rewrite lookup_insert in H0. case_decide; [by right; left|].
      rewrite lookup_insert in H0. case_decide; [by left|].
      rewrite lookup_empty in H0. by destruct H0.
    + by right; right.
    + right. right.
      destruct (APIS_fields_shape _ _ Hcfg) as (pre & post & la & lo & -> & _).
      rewrite fmap_app. set_solver.
Qed.

Lemma plain_fields_copied_witness :
  exists r,
    fst (get_location_by_ip true Cases.net_full Cases.ip "ipapi" empty_world)
    = Return (Some r) /\
    r !! "city" = Some (VStr "Mountain View") /\
    r !! "isp" = Some (VStr "GOOGLE") /\
    r !! "region" = None /\ r !! "asn" = None.
Proof.
  destruct (get_location_by_ip true Cases.net_full Cases.ip "ipapi" empty_world)
    as [[[r|]|] w'] eqn:E; try (vm_compute in E; discriminate).
  exists r. split; [reflexivity|].
  assert (Hr : fst (get_location_by_ip true Cases.net_full Cases.ip "ipapi"
                      empty_world) = Return (Some r)) by (by rewrite E).
  destruct (plain_fields_copied true Cases.net_full Cases.ip "ipapi" _ _
              empty_world r eq_refl eq_refl Hr) as [Hcopy Hkeys].
  repeat split.
  - apply (Hcopy "city" "city"); [|done..].
    apply (bool_decide_unpack _); by vm_compute.
  - apply (Hcopy "isp" "org"); [|done..].
    apply (bool_decide_unpack _); by vm_compute.
  - apply (Hcopy "region" "region"); [|done..].
    apply (bool_decide_unpack _); by vm_compute.
  - destruct (r !! "asn") eqn:Hasn; [|done].
    destruct (Hkeys "asn" ltac:(eauto)) as [?|[?|Hin]]; [done..|].
    apply (bool_decide_pack _) in Hin. by vm_compute in Hin.
Defined.

(** ** Bodies that are not objects *)

Lemma map_field_non_object data result entry result' :
  (forall d, data <> VDict d) ->
  map_field data result entry = Return result' -> result' = result.
Proof.
  intros Hno H. destruct entry as [field api_field]. unfold map_field in H.
  destruct data as [| | | | s | l | d]; simpl in H; try done.
  - destruct (PyStr.is_substring api_field s); simpl in H; [done|].
    by inversion H.
  - destruct (existsb _ l); simpl in H; [done|]. by inversion H.
  - by destruct (Hno d).
Qed.

Lemma map_fields_non_object data entries : forall result result',
  (forall d, data <> VDict d) ->
  map_fields data result entries = Return result' -> result' = result.
Proof.
  induction entries as [|entry rest IH]; intros result result' Hno H; simpl in H.
  - by inversion H.
  - destruct (map_field data result entry) as [r1|] eqn:E; simpl in H; [|done].
    apply (map_field_non_object _ _ _ _ Hno) in E. subst r1. by apply IH.
Qed.

(** X6.  When the decoded body is not an object, the call returns either
    [None] or the bare record {ip, source} (as for an empty JSON array), and
    it returns [None] when the body is null, a boolean or a number. *)
Theorem non_object_body ra net ip name cfg data w :
  Py.assoc name APIS = Some cfg ->
  fetched ra net (format_ip (url cfg) ip) = Return data ->
  (forall d, data <> VDict d) ->
  (fst (get_location_by_ip ra net ip name w) = Return None \/
   fst (get_location_by_ip ra net ip name w) = Return (Some (stamp ip name))) /\
  (is_scalar data = true ->
   fst (get_location_by_ip ra net ip name w) = Return None).
Proof.
  intros Hcfg Hdata Hno. rewrite (call_with_body _ _ _ _ _ _ _ Hcfg Hdata).
  split.
  - destruct (parse_response ip name cfg data) as [r|] eqn:E; [|by left].
    right. unfold parse_response in E.
    by rewrite (map_fields_non_object _ _ _ _ Hno E).
  - intros Hscalar.
    destruct (APIS_ip_first _ _ Hcfg) as (api_field & rest & Hf & _).
    unfold parse_response. rewrite Hf. cbn [map_fields]. unfold map_field.
    by destruct data.
Qed.

Lemma non_object_body_witness :
  (fst (get_location_by_ip true Cases.net_not_objects Cases.ip "ipapi"
          empty_world) = Return None \/
   fst (get_location_by_ip true Cases.net_not_objects Cases.ip "ipapi"
          empty_world) = Return (Some (stamp Cases.ip "ipapi"))) /\
  fst (get_location_by_ip true Cases.net_not_objects Cases.ip "ipinfo"
         empty_world) = Return None.
Proof.
  split.
  - refine (proj1 (non_object_body true Cases.net_not_objects Cases.ip "ipapi"
                     _ (VList []) empty_world eq_refl eq_refl _)).
    discriminate.
  - refine (proj2 (non_object_body true Cases.net_not_objects Cases.ip "ipinfo"
                     _ VNone empty_world eq_refl eq_refl _) eq_refl).
    discriminate.
Defined.

(** ** Typed coordinates, metadata of the first record, fall-back *)

(** X7.  Whenever a result of multi-source resolution holds both [lat] and
    [lon], both are floats: a latitude or longitude copied as a string or
    any other value never comes with its counterpart. *)
Theorem coordinates_present_are_floats ra net ip w r :
  fst (get_location_multi_source ra net ip w) = Return (Some r) ->
  is_Some (r !! "lat") -> is_Some (r !! "lon") ->
  exists fa fo, r !! "lat" = Some (VFloat fa) /\ r !! "lon" = Some (VFloat fo).
Proof.
  rewrite multi_source_resolved. simpl. intros [= H] [a Ha] [o Ho].
  destruct (resolved_typed _ _ _ _ H) as [Hlon|[Hlat|Hboth]];
    [congruence..|exact Hboth].
Qed.

Lemma coordinates_present_are_floats_witness :
  exists fa fo,
    Samples.mixed_result !! "lat" = Some (VFloat fa) /\
    Samples.mixed_result !! "lon" = Some (VFloat fo).
Proof.
  apply (coordinates_present_are_floats true Samples.net_mixed Samples.ip
           empty_world); [vm_compute; reflexivity|vm_compute; eauto..].
Defined.

(** X8.  Whatever the records, every key of the reconciled result other
    than [lat], [lon], [accuracy] and [sources] is the first record's: the
    later records contribute coordinates only. *)
Theorem metadata_from_first first rest r k :
  reconcile (first :: rest) = Return (Some r) ->
  k ∉ ["lat"; "lon"; "accuracy"; "sources"] ->
  r !! k = first !! k.
Proof.
  intros H Hk.
  apply reconcile_Some in H
    as (f & t & [= <- <-] & [(la & lo & _ & _ & ->)| ->]);
    unfold averaged, first_medium;
    rewrite !lookup_insert_ne; try done;
    intros <-; apply Hk; repeat constructor.
Qed.

Lemma metadata_from_first_witness :
  Cases.agreed_result !! "city" = Samples.recA !! "city".
Proof.
  apply (metadata_from_first Samples.recA [Samples.recB] Cases.agreed_result
           "city"); [vm_compute; reflexivity|].
  intros Hin. apply (bool_decide_pack _) in Hin. by vm_compute in Hin.
Defined.

Lemma add_non_number a b : Py.as_number b = None -> Py.add a b = Raise TypeError.
Proof.
  intros Hb. unfold Py.add. rewrite Hb. by destruct (Py.as_number a) as [[?|?]|].
Qed.

Lemma sum_from_non_number v l : forall acc,
  v ∈ l -> Py.as_number v = None -> exists e, Py.sum_from acc l = Raise e.
Proof.
  induction l as [|x l IH]; intros acc Hin Hv; [by apply elem_of_nil in Hin|].
  simpl. apply elem_of_cons in Hin as [<-|Hin].
  - rewrite (add_non_number _ _ Hv). simpl. eauto.
  - destruct (Py.add acc x) as [acc'|e]; simpl; eauto.
Qed.

Lemma mean_non_number v l :
  v ∈ l -> Py.as_number v = None -> exists e, mean l = Raise e.
Proof.
  intros Hin Hv. unfold mean, Py.sum.
  destruct (sum_from_non_number v l (VInt 0) Hin Hv) as [e ->]. simpl. eauto.
Qed.

(** X9.  If any record holds under [lat] or [lon] a value that is not a
    number, reconciliation does not average: the exception of the sum is
    swallowed and the result is the first record with accuracy "medium". *)
Theorem non_numeric_coordinate_falls_back first rest bad key v :
  bad ∈ first :: rest ->
  key = "lat" \/ key = "lon" ->
  bad !! key = Some v -> Py.as_number v = None ->
  reconcile (first :: rest)
  = Return (Some (first_medium (first :: rest) first)).
Proof.
  intros Hbad Hkey Hv Hnum. unfold reconcile.
  destruct (1 <? _)%Z; [|done].
  assert (Hcol : v ∈ column key (first :: rest)).
  { unfold column. apply list_elem_of_omap. eauto. }
  destruct (mean_non_number _ _ Hcol Hnum) as [e He].
  unfold average. destruct (negb _ && negb _); [|done].
  destruct Hkey as [-> | ->].
  - by rewrite He.
  - destruct (mean (column "lat" (first :: rest))); cbn [obind]; [|done].
    by rewrite He.
Qed.

Lemma non_numeric_coordinate_falls_back_witness :
  reconcile [Cases.rec_text_lat; Cases.rec_full]
  = Return (Some (first_medium [Cases.rec_text_lat; Cases.rec_full]
                    Cases.rec_text_lat)).
Proof.
  apply (non_numeric_coordinate_falls_back Cases.rec_text_lat [Cases.rec_full]
           Cases.rec_text_lat "lat" (VStr "not available"));
    [left|by left|reflexivity|reflexivity].
Defined.

(** ** The two transports *)




(** With every status 200 the transports still differ on a body that only
    one of them decodes. *)
Example transports_differ_on_encoding :
  fst (get_location_multi_source true Cases.net_latin1 Cases.ip empty_world)
  = Return (Some {[ "ip" := VStr "8.8.8.8"; "source" := VStr "ipapi";
                    "city" := VStr "Zurich"; "accuracy" := VStr "medium";
                    "sources" := VInt 1 ]}) /\
  fst (get_location_multi_source false Cases.net_latin1 Cases.ip empty_world)
  = Return None.
Proof. split; vm_compute; reflexivity. Qed.

(** ** Tracking one address, tracking a file of addresses *)

Lemma provider_urls_length ip : length (provider_urls ip) = 3%nat.
Proof. reflexivity. Qed.




Lemma track_each_run ra net ips : forall results w,
  let valid := filter (fun ip => _validate_ip ip = true) ips in
  track_each ra net ips results w
  = (Return (results ++ omap (resolved ra net) valid),
     {| requests := requests w ++ concat (map provider_urls valid);
        tracking_history :=
          tracking_history w ++ omap (resolved ra net) valid |}).
Proof.
  induction ips as [|ip ips IH]; intros results w; cbn zeta in *.
  - simpl. unfold ret. rewrite !app_nil_r. by destruct w.
  - cbn [track_each]. destruct (_validate_ip ip) eqn:Hvalid.
    + rewrite filter_cons_True by done. unfold bind.
      rewrite (track_ip_run _ _ _ _ Hvalid). cbn [map concat omap list_omap].
      destruct (resolved ra net ip) as [r|] eqn:E.
      * rewrite (resolved_truthy _ _ _ _ E), IH. cbn [requests tracking_history
          option_list]. by rewrite <- !app_assoc.
      * rewrite IH. cbn [requests tracking_history option_list].
        by rewrite app_nil_r, <- !app_assoc.
    + rewrite filter_cons_False by (by rewrite Hvalid). apply IH.
Qed.


Example bulk_addresses_of_a_file :
  bulk_addresses Cases.fs_list "ips.txt" = ["8.8.8.8"; "1.1.1.1"].
Proof. vm_compute. reflexivity. Qed.

(** ** The public address *)

Lemma ask_service_run ra web service w :
  try_except (ask_service ra web service) (fun e => ret None) w
  = (Return (service_answer ra web service), logged service w).
Proof.
  unfold try_except, ask_service, bind, service_answer, service_text.
  destruct (web service) as [p|e]; simpl; [|done].
  destruct ra.
  - destruct (page_text p) as [text|]; simpl; [|done].
    by destruct (negb _ && _).
  - destruct (_ && _); simpl; [|done].
    destruct (page_text p) as [text|]; simpl; [|done].
    by destruct (negb _ && _).
Qed.

Lemma service_answer_shape ra web service ip :
  service_answer ra web service = Some ip ->
  ip <> EmptyString /\ length (PyStr.split "." ip) = 4%nat.
Proof.
  unfold service_answer. destruct (service_text ra web service) as [text|]; [|done].
  destruct (negb _ && _) eqn:H; [|done]. intros [= <-].
  apply andb_true_iff in H as [H1 H2]. split.
  - intros Heq. rewrite Heq in H1. done.
  - by apply Nat.eqb_eq.
Qed.

Lemma ask_services_run ra web remaining : forall w,
  exists ip asked,
    ask_services ra web remaining w
    = (Return ip, {| requests := requests w ++ asked;
                     tracking_history := tracking_history w |}) /\
    ((ip = "Unknown" /\ asked = remaining /\
      Forall (fun s => service_answer ra web s = None) remaining) \/
     (exists before service after,
        remaining = before ++ service :: after /\
        asked = before ++ [service] /\
        Forall (fun s => service_answer ra web s = None) before /\
        service_answer ra web service = Some ip)).
Proof.
  induction remaining as [|service rest IH]; intros w.
  - exists "Unknown", []. split; [|left; by repeat split].
    simpl. unfold ret. rewrite app_nil_r. by destruct w.
  - cbn [ask_services]. unfold bind. rewrite ask_service_run.
    destruct (service_answer ra web service) as [ip|] eqn:E.
    + exists ip, [service]. split; [done|]. right.
      exists [], service, rest. by repeat split.
    + destruct (IH (logged service w)) as (ip & asked & -> & Hcase).
      exists ip, (service :: asked). split.
      { unfold logged. simpl. by rewrite <- app_assoc. }
      destruct Hcase as [(-> & -> & Hall)|(b & s & a & -> & -> & Hall & Hs)].
      * left. repeat split. by constructor.
      * right. exists (service :: b), s, a. repeat split; [by constructor|done].
Qed.

(** X12.  [get_public_ip] raises nothing and asks the four services in
    order, stopping at the first whose stripped text is not empty and has
    exactly four parts between dots, which it returns; the services after
    that one are not contacted.  It returns "Unknown" only after all four
    gave nothing of that shape.  Nothing else is checked of the text. *)
Theorem get_public_ip_run ra web w :
  exists ip asked,
    get_public_ip ra web w
    = (Return ip, {| requests := requests w ++ asked;
                     tracking_history := tracking_history w |}) /\
    ((ip = "Unknown" /\ asked = services /\
      Forall (fun s => service_answer ra web s = None) services) \/
     (exists before service after,
        services = before ++ service :: after /\
        asked = before ++ [service] /\
        Forall (fun s => service_answer ra web s = None) before /\
        service_answer ra web service = Some ip /\
        ip <> EmptyString /\ length (PyStr.split "." ip) = 4%nat)).
Proof.
  destruct (ask_services_run ra web services w) as (ip & asked & Hrun & Hcase).
  exists ip, asked. split; [exact Hrun|].
  destruct Hcase as [?|(b & s & a & ? & ? & ? & Hs)]; [by left|].
  right. exists b, s, a. repeat split; try done;
    by apply (service_answer_shape _ _ _ _ Hs).
Qed.


Example host_name_taken_for_an_address :
  fst (get_public_ip true Cases.web_host_name empty_world)
  = Return "a.example.org.uk" /\
  _validate_ip "a.example.org.uk" = false /\
  requests (snd (get_own_location true Samples.net_down Cases.web_host_name
                   empty_world))
  = [ "https://api.ipify.org"; "https://ident.me" ]
    ++ provider_urls "a.example.org.uk".
Proof. repeat split; vm_compute; reflexivity. Qed.

(** ** Usernames *)

Lemma check_platform_known ra head_status username platform url w :
  Py.assoc platform (profile_urls username) = Some url ->
  _check_platform ra head_status username platform w
  = (Return (Some (profile url (answers_200 head_status url) platform)),
     logged url w).
Proof.
  intros H. unfold _check_platform. rewrite H.
  unfold try_except, head_found, answers_200, bind, ret.
  destruct (head_status url) as [status|e]; simpl; [|done].
  destruct ra; simpl.
  - by destruct (status =? 200)%Z.
  - destruct (200 <=? status)%Z eqn:H1, (status <? 300)%Z eqn:H2; simpl;
      destruct (status =? 200)%Z eqn:H3; try done;
      apply Z.eqb_eq in H3; subst; done.
Qed.

Lemma check_platform_unknown ra head_status username platform w :
  Py.assoc platform (profile_urls username) = None ->
  _check_platform ra head_status username platform w = (Return None, w).
Proof. intros H. unfold _check_platform. by rewrite H. Qed.

(** X14.  [_check_platform] raises nothing.  For a platform it does not know
    it returns [None] without a request; for one it knows it issues one HEAD
    request and returns the dictionary {url, exists, platform}, where
    [exists] is true exactly when the request ended with status 200: a
    time-out, an error status or another success status all give false, and
    the [requests] and [urllib] transports agree. *)
Theorem check_platform_run ra head_status username platform w :
  _check_platform ra head_status username platform w
  = match Py.assoc platform (profile_urls username) with
    | None => (Return None, w)
    | Some url =>
        (Return (Some (profile url (answers_200 head_status url) platform)),
         logged url w)
    end /\
  (forall url,
     answers_200 head_status url = true <-> head_status url = Return 200%Z).
Proof.
  split.
  - destruct (Py.assoc platform (profile_urls username)) as [url|] eqn:E.
    + by apply check_platform_known.
    + by apply check_platform_unknown.
  - intros url. unfold answers_200.
    destruct (head_status url) as [status|e]; [|done].
    destruct (Z.eqb_spec status 200) as [->|Hne]; [done|].
    split; [done|]. by intros [= ->].
Qed.

Lemma check_each_known ra head_status username platform url rest results w :
  Py.assoc platform (profile_urls username) = Some url ->
  check_each ra head_status username (platform :: rest) results w
  = check_each ra head_status username rest
      (setitem platform (profile url (answers_200 head_status url) platform)
         results)
      (logged url w).
Proof.
  intros H. cbn [check_each]. unfold bind at 1.
  rewrite (check_platform_known _ _ _ _ _ _ H). reflexivity.
Qed.

Lemma check_each_unknown ra head_status username platform rest results w :
  Py.assoc platform (profile_urls username) = None ->
  check_each ra head_status username (platform :: rest) results w
  = check_each ra head_status username rest results w.
Proof.
  intros H. cbn [check_each]. unfold bind at 1.
  rewrite (check_platform_unknown _ _ _ _ _ H). reflexivity.
Qed.

(** X15.  With the default platforms, the tracker's [track_username] raises
    nothing, issues five HEAD requests in the order instagram, twitter,
    facebook, github, linkedin, and always returns a dictionary with those
    five keys in that order, each holding that platform's URL and whether
    it answered 200; it always appends one entry {username, results} to the
    history, so its "no profiles found" branch is never taken. *)
Theorem track_username_run ra head_status username w :
  exists results,
    track_username ra head_status username w
    = (Return (Some results),
       {| requests := requests w ++ default_urls username;
          tracking_history :=
            tracking_history w
            ++ [ {[ "username" := VStr username;
                    "results" := VDict results ]} ] |}) /\
    map fst results = default_platforms /\
    (forall platform url,
       Py.assoc platform (profile_urls username) = Some url ->
       Py.assoc platform results
       = Some (profile url (answers_200 head_status url) platform)).
Proof.
  eexists. split; [|split].
  - unfold track_username, social_track_username.
    unfold bind at 1. cbn [default default_platforms].
    unfold default_platforms.
    do 5 (erewrite check_each_known by reflexivity).
    cbn [check_each ret setitem String.eqb Ascii.eqb Bool.eqb].
    unfold items_truthy. rewrite bool_decide_eq_false_2 by done.
    cbn [negb]. unfold bind, append_history, ret, logged.
    cbn [requests tracking_history].
    rewrite <- !app_assoc. reflexivity.
  - reflexivity.
  - intros platform url H. unfold profile_urls in H.
    cbn [Py.assoc] in H |- *. revert H.
    repeat match goal with
           | |- context [String.eqb platform ?s] =>
               destruct (String.eqb_spec platform s) as [->|?];
               [intros [= <-]; reflexivity|]
           end.
    done.
Qed.

Example track_username_on_a_sample :
  exists results w',
    track_username true Cases.head_github "octocat" empty_world
    = (Return (Some results), w') /\
    Py.assoc "github" results
    = Some (profile "https://github.com/octocat" true "github") /\
    Py.assoc "twitter" results
    = Some (profile "https://twitter.com/octocat" false "twitter") /\
    Py.assoc "instagram" results
    = Some (profile "https://www.instagram.com/octocat/" false "instagram").
Proof. do 2 eexists. repeat split; vm_compute; reflexivity. Qed.

(** ** The licence *)

(** X16.  [has_feature] answers from the feature list alone, and a refused
    key does not clear that list.  So a manager that accepted the key once
    and then refused another has [is_valid] false and still grants every
    feature; a new manager that refused a key grants none. *)
Theorem features_outlive_a_refusal K good bad m feature :
  PyStr.strip good = K -> PyStr.strip bad <> K ->
  let m1 := snd (validate K good m) in
  let m2 := snd (validate K bad m1) in
  fst (validate K good m) = true /\
  fst (validate K bad m1) = false /\
  is_valid m2 = false /\
  has_feature feature m2 = true /\
  has_feature feature (snd (validate K bad new_license_manager)) = false.
Proof.
  intros Hgood Hbad. unfold validate, DEMO_MODE. rewrite Hgood.
  rewrite String.eqb_refl. cbn [andb fst snd].
  destruct (String.eqb_spec (PyStr.strip bad) K) as [|_]; [done|].
  cbn [fst snd is_valid features]. repeat split.
  unfold has_feature. cbn [features]. apply orb_true_iff. right.
  apply bool_decide_eq_true_2, list_elem_of_here.
Qed.

Lemma features_outlive_a_refusal_witness :
  fst (validate "KEY-1" " KEY-1 " new_license_manager) = true /\
  fst (validate "KEY-1" "DEMO"
         (snd (validate "KEY-1" " KEY-1 " new_license_manager))) = false /\
  is_valid (snd (validate "KEY-1" "DEMO"
                   (snd (validate "KEY-1" " KEY-1 " new_license_manager))))
  = false /\
  has_feature "export"
    (snd (validate "KEY-1" "DEMO"
            (snd (validate "KEY-1" " KEY-1 " new_license_manager)))) = true /\
  has_feature "export" (snd (validate "KEY-1" "DEMO" new_license_manager))
  = false.
Proof.
  apply (features_outlive_a_refusal "KEY-1" " KEY-1 " "DEMO"
           new_license_manager "export"); [reflexivity|discriminate].
Defined.

(** X20.  With demo mode off, the stripped key being the valid key is the
    only way [validate] answers true, and then the manager is valid and
    grants every feature asked of it, so the check before phone tracking
    never refuses once the tracker exists. *)
Theorem accepted_key_grants_everything K key m feature :
  fst (validate K key m) = true ->
  PyStr.strip key = K /\
  license_key (snd (validate K key m)) = K /\
  is_valid (snd (validate K key m)) = true /\
  has_feature feature (snd (validate K key m)) = true.
Proof.
  unfold validate, DEMO_MODE.
  destruct (String.eqb_spec (PyStr.strip key) K) as [->|_]; [|done].
  intros _. cbn [fst snd license_key is_valid]. repeat split.
  unfold has_feature. cbn [snd features]. apply orb_true_iff. right.
  apply bool_decide_eq_true_2, list_elem_of_here.
Qed.

Lemma accepted_key_grants_everything_witness :
  PyStr.strip "KEY-1  " = "KEY-1" /\
  license_key (snd (validate "KEY-1" "KEY-1  " new_license_manager)) = "KEY-1" /\
  is_valid (snd (validate "KEY-1" "KEY-1  " new_license_manager)) = true /\
  has_feature "phone" (snd (validate "KEY-1" "KEY-1  " new_license_manager))
  = true.
Proof.
  apply (accepted_key_grants_everything "KEY-1" "KEY-1  " new_license_manager
           "phone").
  reflexivity.
Defined.

(** ** The CSV report *)

Lemma csv_row_ip item :
  ip_entry item -> exists row, csv_row item = Some row /\ map fst row = ip_fields.
Proof.
  intros H. unfold csv_row. rewrite bool_decide_eq_true_2 by exact H.
  eexists. split; reflexivity.
Qed.

Lemma csv_row_phone item :
  phone_entry item ->
  exists row, csv_row item = Some row /\ map fst row = phone_fields.
Proof.
  intros [Hip Hphone]. unfold csv_row.
  rewrite bool_decide_eq_false_2 by (rewrite Hip; by intros [? ?]).
  rewrite bool_decide_eq_true_2 by exact Hphone.
  eexists. split; reflexivity.
Qed.

Lemma csv_row_kind item row :
  csv_row item = Some row ->
  (ip_entry item /\ map fst row = ip_fields) \/
  (phone_entry item /\ map fst row = phone_fields).
Proof.
  unfold csv_row. case_bool_decide as Hip.
  - intros [= <-]. by left.
  - case_bool_decide as Hphone; [|done]. intros [= <-]. right.
    split; [|done]. split; [|done].
    destruct (item !! "ip") eqn:E; [|done]. exfalso. apply Hip. eauto.
Qed.

Lemma dict_to_list_own_fields rowdict :
  exists cells, _dict_to_list (map fst rowdict) rowdict = Return cells.
Proof.
  unfold _dict_to_list. eexists.
  rewrite (proj2 (forallb_forall _ _)); [reflexivity|].
  intros k Hk. apply bool_decide_eq_true_2. by apply list_elem_of_In.
Qed.

Lemma dict_to_list_wrong_fields fieldnames rowdict k :
  k ∈ map fst rowdict -> k ∉ fieldnames ->
  _dict_to_list fieldnames rowdict = Raise ValueError.
Proof.
  intros Hk Hnot. unfold _dict_to_list.
  destruct (forallb _ _) eqn:E; [|done].
  rewrite forallb_forall in E. apply list_elem_of_In, E in Hk.
  by apply bool_decide_eq_true_1 in Hk.
Qed.

Lemma writerows_stops accepts fieldnames rowdict rowdicts e :
  rowdict ∈ rowdicts -> _dict_to_list fieldnames rowdict = Raise e ->
  writerows accepts fieldnames rowdicts = false.
Proof.
  intros Hin Hraise. induction rowdicts as [|first rest IH].
  - by apply elem_of_nil in Hin.
  - cbn [writerows]. apply elem_of_cons in Hin as [<-|Hin].
    + by rewrite Hraise.
    + destruct (_dict_to_list fieldnames first); [|done].
      rewrite (IH Hin). apply andb_false_r.
Qed.

Lemma writerows_uniform accepts fieldnames rowdicts :
  (forall cells, accepts cells = true) ->
  Forall (fun rowdict => map fst rowdict = fieldnames) rowdicts ->
  writerows accepts fieldnames rowdicts = true.
Proof.
  intros Hacc. induction 1 as [|rowdict rest Hrow _ IH]; [done|].
  cbn [writerows]. destruct (dict_to_list_own_fields rowdict) as [cells Hc].
  rewrite Hrow in Hc. by rewrite Hc, Hacc, IH.
Qed.

Lemma fields_differ :
  "City" ∈ ip_fields /\ ("City" ∉ phone_fields) /\
  "Region" ∈ phone_fields /\ ("Region" ∉ ip_fields).
Proof.
  repeat split; try (apply (bool_decide_unpack _); by vm_compute);
    intros Hin; apply (bool_decide_pack _) in Hin; by vm_compute in Hin.
Qed.

Lemma mixed_rows_stop accepts history first rest :
  mixed history -> omap csv_row history = first :: rest ->
  writerows accepts (map fst first) (first :: rest) = false.
Proof.
  intros (a & b & Ha & Hb & Hia & Hpb) Hrows.
  destruct (csv_row_ip a Hia) as (rowa & Hrowa & Hfa).
  destruct (csv_row_phone b Hpb) as (rowb & Hrowb & Hfb).
  assert (rowa ∈ first :: rest) as Hina
    by (rewrite <- Hrows; apply list_elem_of_omap; eauto).
  assert (rowb ∈ first :: rest) as Hinb
    by (rewrite <- Hrows; apply list_elem_of_omap; eauto).
  assert (first ∈ omap csv_row history) as Hfirst
    by (rewrite Hrows; apply list_elem_of_here).
  apply list_elem_of_omap in Hfirst as (c & _ & Hc).
  destruct fields_differ as (Hcity & Hnocity & Hregion & Hnoregion).
  apply csv_row_kind in Hc as [[_ ->]|[_ ->]].
  - eapply writerows_stops; [exact Hinb|].
    eapply dict_to_list_wrong_fields; [rewrite Hfb; exact Hregion|done].
  - eapply writerows_stops; [exact Hina|].
    eapply dict_to_list_wrong_fields; [rewrite Hfa; exact Hcity|done].
Qed.

Lemma unmixed_rows_uniform history first rest :
  ~ mixed history -> omap csv_row history = first :: rest ->
  Forall (fun rowdict => map fst rowdict = map fst first) (first :: rest).
Proof.
  intros Hno Hrows. apply Forall_forall. intros row Hrow.
  assert (first ∈ omap csv_row history) as Hfirst
    by (rewrite Hrows; apply list_elem_of_here).
  rewrite <- Hrows in Hrow.
  apply list_elem_of_omap in Hfirst as (c & Hcin & Hc).
  apply list_elem_of_omap in Hrow as (d & Hdin & Hd).
  apply csv_row_kind in Hc as [[Hkc ->]|[Hkc ->]];
    apply csv_row_kind in Hd as [[Hkd ->]|[Hkd ->]]; try done;
    exfalso; apply Hno; [by exists c, d|by exists d, c].
Qed.

(** X17.  A history that holds both an address entry and a phone entry
    cannot be written as CSV: the field names are those of the first row,
    the writer refuses the first row of the other kind, and the report
    returns [None], whatever the file system does and whichever entry came
    first. *)
Theorem csv_report_mixed_history opens accepts output_file history :
  mixed history ->
  generate_report_csv opens accepts output_file history = None.
Proof.
  intros Hmixed. unfold generate_report_csv.
  case_bool_decide; [done|]. destruct (opens output_file); [|done].
  cbn [negb]. destruct (omap csv_row history) as [|first rest] eqn:Hrows.
  - destruct Hmixed as (a & _ & Ha & _ & Hia & _).
    destruct (csv_row_ip a Hia) as (rowa & Hrowa & _).
    assert (rowa ∈ omap csv_row history) as Hin
      by (apply list_elem_of_omap; eauto).
    rewrite Hrows in Hin. by apply elem_of_nil in Hin.
  - rewrite (mixed_rows_stop accepts _ _ _ Hmixed Hrows).
    by rewrite andb_false_r.
Qed.

Lemma csv_report_mixed_history_witness :
  mixed [Cases.phone_record; Cases.rec_full] /\
  generate_report_csv Cases.opens_all Cases.accepts_all "report.csv"
    [Cases.phone_record; Cases.rec_full] = None.
Proof.
  assert (mixed [Cases.phone_record; Cases.rec_full]) as Hmixed.
  { exists Cases.rec_full, Cases.phone_record. unfold ip_entry, phone_entry.
    split; [apply list_elem_of_further, list_elem_of_here|].
    split; [apply list_elem_of_here|].
    split; [|split]; vm_compute; eauto. }
  split; [exact Hmixed|].
  exact (csv_report_mixed_history Cases.opens_all Cases.accepts_all
           "report.csv" _ Hmixed).
Defined.

(** X18.  When the file opens and takes every row, the CSV report of a
    history that is not empty is written, and the file name returned,
    exactly when the history does not hold both an address entry and a
    phone entry; entries of neither kind, such as those of usernames, are
    skipped and never make it fail. *)
Theorem csv_report_written opens accepts output_file history :
  history <> [] -> opens output_file = true ->
  (forall cells, accepts cells = true) ->
  generate_report_csv opens accepts output_file history = Some output_file
  <-> ~ mixed history.
Proof.
  intros Hne Hopen Hacc. unfold generate_report_csv.
  rewrite bool_decide_eq_false_2 by exact Hne. rewrite Hopen. cbn [negb].
  destruct (omap csv_row history) as [|first rest] eqn:Hrows.
  - split; [|done]. intros _ (a & _ & Ha & _ & Hia & _).
    destruct (csv_row_ip a Hia) as (rowa & Hrowa & _).
    assert (rowa ∈ omap csv_row history) as Hin
      by (apply list_elem_of_omap; eauto).
    rewrite Hrows in Hin. by apply elem_of_nil in Hin.
  - rewrite Hacc. cbn [andb]. split.
    + intros H Hmixed.
      by rewrite (mixed_rows_stop accepts _ _ _ Hmixed Hrows) in H.
    + intros Hno.
      by rewrite (writerows_uniform _ _ _ Hacc
                    (unmixed_rows_uniform _ _ _ Hno Hrows)).
Qed.

Lemma csv_report_written_witness :
  generate_report_csv Cases.opens_all Cases.accepts_all "report.csv"
    [Cases.rec_full; Cases.rec_text_lat] = Some "report.csv"
  <-> ~ mixed [Cases.rec_full; Cases.rec_text_lat].
Proof.
  apply (csv_report_written Cases.opens_all Cases.accepts_all "report.csv"
           [Cases.rec_full; Cases.rec_text_lat]); [done|reflexivity|done].
Defined.

(** ** Histories the address and username trackers build *)

Lemma resolved_ip_entry ra net ip r :
  resolved ra net ip = Some r -> ip_entry r.
Proof.
  unfold resolved, ip_entry. intros H.
  destruct (reconcile _) as [res|] eqn:E; [|done]. subst res.
  apply reconcile_Some in E as (first & rest & Hrecords & Hr).
  assert (first ∈ successful_records ra net ip) as Hfirst
    by (rewrite Hrecords; apply list_elem_of_here).
  apply list_elem_of_omap in Hfirst as (name & _ & Hname).
  apply provider_answer_stamped in Hname as ([v Hv] & _).
  destruct Hr as [(la & lo & _ & _ & ->)| ->];
    unfold averaged, first_medium; exists v; by simplify_map_eq.
Qed.

Lemma check_each_history ra head_status username platforms :
  forall results w, exists results' w',
    check_each ra head_status username platforms results w
    = (Return results', w') /\
    tracking_history w' = tracking_history w.
Proof.
  induction platforms as [|platform rest IH]; intros results w.
  - by exists results, w.
  - destruct (Py.assoc platform (profile_urls username)) as [url|] eqn:E.
    + rewrite (check_each_known _ _ _ _ _ _ _ _ E).
      destruct (IH (setitem platform
                      (profile url (answers_200 head_status url) platform)
                      results) (logged url w)) as (r' & w' & -> & Hw).
      by exists r', w'.
    + rewrite (check_each_unknown _ _ _ _ _ _ _ E). apply IH.
Qed.

(** X19.  [track_ip], [bulk_track_ips] and [track_username] put no phone
    entry in the history, whatever the address, the file, the username and
    the network: a history free of phone entries stays so through each of
    them, so that only phone tracking can make the CSV report fail on its
    rows. *)
Theorem trackers_add_no_phone_entry ra net fs head_status ip path username w :
  Forall (fun e => ~ phone_entry e) (tracking_history w) ->
  Forall (fun e => ~ phone_entry e)
    (tracking_history (snd (track_ip ra net ip w))) /\
  Forall (fun e => ~ phone_entry e)
    (tracking_history (snd (bulk_track_ips ra net fs path w))) /\
  Forall (fun e => ~ phone_entry e)
    (tracking_history (snd (track_username ra head_status username w))).
Proof.
  intros Hw.
  assert (forall ips, Forall (fun e => ~ phone_entry e)
                        (omap (resolved ra net) ips)) as Hres.
  { intros ips. apply Forall_forall. intros r Hr.
    apply list_elem_of_omap in Hr as (i & _ & Hi).
    apply resolved_ip_entry in Hi as [v Hv]. intros [Hnone _].
    by rewrite Hv in Hnone. }
  repeat split.
  - destruct (_validate_ip ip) eqn:Hvalid.
    + rewrite (track_ip_run _ _ _ _ Hvalid). cbn [snd tracking_history].
      apply Forall_app. split; [exact Hw|].
      specialize (Hres [ip]). cbn [omap list_omap] in Hres.
      destruct (resolved ra net ip); [exact Hres|constructor].
    + by rewrite (track_ip_invalid _ _ _ _ Hvalid).
  - unfold bulk_track_ips. destruct (fs path) as [| |lines]; try exact Hw.
    unfold try_except. case_bool_decide; [exact Hw|].
    rewrite track_each_run. cbn [snd tracking_history].
    apply Forall_app. split; [exact Hw|apply Hres].
  - unfold track_username, social_track_username, bind.
    destruct (check_each_history ra head_status username
                (default default_platforms None) [] w)
      as (results & w' & -> & Hw').
    unfold append_history, ret.
    destruct (items_truthy results); cbn [snd tracking_history]; rewrite Hw';
      [|exact Hw].
    apply Forall_app. split; [exact Hw|].
    constructor; [|constructor]. intros [_ [v Hv]]. by simplify_map_eq.
Qed.

Lemma trackers_add_no_phone_entry_witness :
  Forall (fun e => ~ phone_entry e)
    (tracking_history (snd (track_ip true Cases.net_full Cases.ip empty_world))) /\
  Forall (fun e => ~ phone_entry e)
    (tracking_history
       (snd (bulk_track_ips true Cases.net_full Cases.fs_list "ips.txt"
               empty_world))) /\
  Forall (fun e => ~ phone_entry e)
    (tracking_history
       (snd (track_username true Cases.head_github "octocat" empty_world))).
Proof.
  apply (trackers_add_no_phone_entry true Cases.net_full Cases.fs_list
           Cases.head_github Cases.ip "ips.txt" "octocat" empty_world).
  constructor.
Defined.
